(** * Helios multi-wallet bot: batch execution engine

    A shallow embedding of [helios_multi_bot.py], [helios_operations.py]
    and the parts of [wallet_manager.py] they rely on, with the
    properties of the batch partitioner, the wallet task runner, the
    batch coordinator and the report assembler.

    Conventions.
    - Python [int] is [Z]; Python [float] is the kernel's binary64
      [float], so arithmetic and comparisons round as CPython's do.
    - A [dict] with a fixed set of keys is a record; a [dict] whose
      iteration order matters is an association list; the report
      directory is a finite map from path to content.
    - A call that may raise returns a [pyresult]; code that threads
      state and exceptions lives in the monad [M]. *)

From stdpp Require Import gmap strings.
From Stdlib Require Import ZArith Floats DecimalString Lia Sorted.

Set Warnings "-inexact-float,-register-all,-clear-no-such-hyp".
Local Open Scope Z_scope.

(** ** Python values shared by the three modules *)

Module Py.

(** Instances of [Exception].  [RetryError] is what tenacity raises once
    its stop condition holds; it wraps the last failure.  Classes that
    derive from [BaseException] only (cancellation, keyboard interrupt)
    are outside this type. *)
Inductive exn : Type :=
  | Exception (msg : string)
  | RetryError (last : exn)
  | ZeroDivisionError
  | OSError (msg : string).

(** [str(e)]. *)
Fixpoint str_exn (e : exn) : string :=
  match e with
  | Exception msg => msg
  | RetryError last => "RetryError[" +:+ str_exn last +:+ "]"
  | ZeroDivisionError => "integer division or modulo by zero"
  | OSError msg => msg
  end.

Inductive pyresult (A : Type) : Type :=
  | Ret (a : A)
  | Raise (e : exn).
Arguments Ret {A} a.
Arguments Raise {A} e.

Definition is_ret {A} (r : pyresult A) : bool :=
  match r with Ret _ => true | Raise _ => false end.

(** Truth value of a [str]: the empty string is false. *)
Definition truthy_str (s : string) : bool :=
  match s with EmptyString => false | String _ _ => true end.

(** Truth value of an [Optional[str]]. *)
Definition truthy (o : option string) : bool :=
  match o with None => false | Some s => truthy_str s end.

(** One bound of a slice [l[a:b]] over a sequence of length [n]:
    a negative bound counts from the end, and the result is clamped
    to [0..n]. *)
Definition slice_bound (n i : Z) : Z :=
  if i <? 0 then Z.max 0 (i + n) else Z.min i n.

(** [l[a:b]]. *)
Definition slice {A} (l : list A) (a b : Z) : list A :=
  let n := Z.of_nat (length l) in
  let lo := slice_bound n a in
  let hi := slice_bound n b in
  firstn (Z.to_nat (hi - lo)) (skipn (Z.to_nat lo) l).

(** [a // b] on integers: floor division, raising on a zero divisor. *)
Definition floordiv (a b : Z) : pyresult Z :=
  if b =? 0 then Raise ZeroDivisionError else Ret (a / b).

(** [str(n)] for an [int]. *)
Definition str_int (n : Z) : string := NilZero.string_of_int (Z.to_int n).

End Py.
Export Py.

(** ** State and exceptions *)

(** A computation over a state [S] that returns or raises.  The state
    survives a raise, as the fields of an object and the local variables
    of a frame do. *)
Definition M (S A : Type) : Type := S -> pyresult A * S.

Definition ret {S A} (a : A) : M S A := fun s => (Ret a, s).
Definition raise {S A} (e : exn) : M S A := fun s => (Raise e, s).
Definition bind {S A B} (c : M S A) (k : A -> M S B) : M S B :=
  fun s => match c s with
           | (Ret a, s') => k a s'
           | (Raise e, s') => (Raise e, s')
           end.
Definition get {S} : M S S := fun s => (Ret s, s).
Definition modify {S} (f : S -> S) : M S unit := fun s => (Ret tt, f s).
(** [try: c except Exception as e: h e]. *)
Definition try_except {S A} (c : M S A) (h : exn -> M S A) : M S A :=
  fun s => match c s with
           | (Ret a, s') => (Ret a, s')
           | (Raise e, s') => h e s'
           end.
(** A call that cannot raise. *)
Definition lift {S A} (f : S -> A * S) : M S A :=
  fun s => let (a, s') := f s in (Ret a, s').

Declare Scope py_scope.
Delimit Scope py_scope with py.
Notation "x <- c ;; k" := (bind c (fun x => k))
  (at level 100, c at next level, right associativity) : py_scope.
Notation "c ;;; k" := (bind c (fun _ => k))
  (at level 100, right associativity) : py_scope.

(** ** wallet_manager.py: the wallet configuration *)

Record Wallet : Type := mkWallet {
  w_id : string;
  w_private_key : string;
  w_address : string;
  w_filename : string;
  w_line_number : Z
}.

(** The value of [load_all_wallet_files]: file name to wallets, in the
    order the files were inserted. *)
Definition WalletFiles : Type := list (string * list Wallet).

(** ** helios_multi_bot.py: the batch partitioner *)

Module Partitioner.

(** [for filename, wallets in all_wallets.items(): flat_wallets.extend(wallets)] *)
Definition flatten (all_wallets : WalletFiles) : list Wallet :=
  concat (map snd all_wallets).

(** The three index computations of [get_batch_wallets], for a non-empty
    wallet list. *)
Definition batch_size (total_batches total_wallets : Z) : pyresult Z :=
  match floordiv (total_wallets + total_batches - 1) total_batches with
  | Ret q => Ret (Z.max 1 q)
  | Raise e => Raise e
  end.

Definition start_idx (batch_number size : Z) : Z := (batch_number - 1) * size.

Definition end_idx (batch_number size total_wallets : Z) : Z :=
  Z.min (start_idx batch_number size + size) total_wallets.

Definition get_batch_wallets (batch_number total_batches : Z)
    (all_wallets : WalletFiles) : pyresult (list Wallet) :=
  let flat_wallets := flatten all_wallets in
  let total_wallets := Z.of_nat (length flat_wallets) in
  if total_wallets =? 0 then Ret []
  else
    match batch_size total_batches total_wallets with
    | Raise e => Raise e
    | Ret size =>
        Ret (slice flat_wallets (start_idx batch_number size)
                   (end_idx batch_number size total_wallets))
    end.

(** The slices of batches [1..total_batches], in batch order. *)
Definition all_batches (total_batches : Z) (all_wallets : WalletFiles)
    : list (pyresult (list Wallet)) :=
  map (fun k => get_batch_wallets (Z.of_nat k) total_batches all_wallets)
      (seq 1 (Z.to_nat total_batches)).

End Partitioner.

(** ** tenacity: the [@retry] decorator

    The decorator of the two provider methods is
    [@retry(stop=stop_after_attempt(3),
            wait=wait_exponential(multiplier=1, min=4, max=10))].
    tenacity is a third-party package; the definitions below follow its
    documented behaviour: the wrapped call is attempted, a raise is
    followed by the stop test on the number of attempts made so far, and
    either [RetryError] is raised or the wait is slept and the call is
    attempted again. *)

Module Tenacity.

(** [wait_exponential(multiplier, min, max)] after attempt
    [attempt_number] (counted from 1). *)
Definition wait_exponential (multiplier min max : Z) (attempt_number : nat) : Z :=
  Z.max (Z.max 0 min) (Z.min (multiplier * 2 ^ (Z.of_nat attempt_number - 1)) max).

Section Retry.
Context {St A : Type}.
Variable sleep : Z -> M St unit.
Variable wait : nat -> Z.

(** The attempt numbered [attempt_number], with [remaining] further
    attempts allowed by [stop_after_attempt]. *)
Fixpoint attempts (remaining attempt_number : nat) (f : M St A) : M St A :=
  try_except f (fun e =>
    match remaining with
    | O => raise (RetryError e)
    | S k =>
        bind (sleep (wait attempt_number))
             (fun _ => attempts k (S attempt_number) f)
    end).

(** [retry(stop=stop_after_attempt(n), wait=wait)(f)], for [n >= 1]. *)
Definition retry (stop_after_attempt : nat) (f : M St A) : M St A :=
  attempts (stop_after_attempt - 1) 1 f.
End Retry.

End Tenacity.

(** ** helios_operations.py: the operation provider *)

(** The dict returned by [get_wallet_info]. *)
Record WalletInfo : Type := mkWalletInfo {
  wi_address : string;
  wi_balance : float;
  wi_pending_rewards : option float;
  wi_total_value : float;
  wi_error : option string
}.

(** The three methods of [self.helios_ops] that the runner calls, over
    the provider's own state [W]. *)
Record Provider (W : Type) : Type := mkProvider {
  get_wallet_info : string -> M W WalletInfo;
  execute_stake_operation : Wallet -> float -> M W (option string);
  execute_auto_compound : Wallet -> M W (option string)
}.
Arguments get_wallet_info {W} _ _ _.
Arguments execute_stake_operation {W} _ _ _ _.
Arguments execute_auto_compound {W} _ _ _.

Module HeliosOperations.

(** What web3 and eth_account answer during one run of the body of
    [execute_stake_operation], call by call, in the order of the source. *)
Record StakeRpc : Type := mkStakeRpc {
  s_from_key : pyresult string;       (* Account.from_key(...).address *)
  s_to_wei : pyresult Z;              (* w3.to_wei(stake_amount, 'ether') *)
  s_nonce : pyresult Z;               (* w3.eth.get_transaction_count *)
  s_gas_price : pyresult Z;           (* w3.eth.gas_price *)
  s_chain_id : pyresult Z;            (* w3.eth.chain_id *)
  s_sign : pyresult string;           (* sign_transaction(...).rawTransaction *)
  s_send : pyresult string;           (* send_raw_transaction(...).hex() *)
  s_receipt_status : pyresult Z       (* wait_for_transaction_receipt(...).status *)
}.

(** The same for the guarded part of [execute_auto_compound]. *)
Record CompoundRpc : Type := mkCompoundRpc {
  c_from_key : pyresult string;
  c_gas_price : pyresult Z;
  c_nonce : pyresult Z;
  c_chain_id : pyresult Z;
  c_sign : pyresult string;
  c_send : pyresult string;
  c_receipt_status : pyresult Z
}.

(** The chain endpoint as the provider sees it: the outcome of every
    remote call, indexed by how many calls of that kind came before, and
    what the provider has done so far. *)
Record Chain : Type := mkChain {
  balance_reply : string -> nat -> pyresult float;
    (* float(from_wei(w3.eth.get_balance(address), 'ether')) *)
  stake_reply : Wallet -> float -> nat -> StakeRpc;
  compound_reply : Wallet -> nat -> CompoundRpc;
  balance_calls : nat;
  stake_calls : nat;
  compound_calls : nat;
  slept : list Z                      (* seconds waited between attempts *)
}.

Definition tick_balance (c : Chain) : Chain :=
  mkChain (balance_reply c) (stake_reply c) (compound_reply c)
          (S (balance_calls c)) (stake_calls c) (compound_calls c) (slept c).
Definition tick_stake (c : Chain) : Chain :=
  mkChain (balance_reply c) (stake_reply c) (compound_reply c)
          (balance_calls c) (S (stake_calls c)) (compound_calls c) (slept c).
Definition tick_compound (c : Chain) : Chain :=
  mkChain (balance_reply c) (stake_reply c) (compound_reply c)
          (balance_calls c) (stake_calls c) (S (compound_calls c)) (slept c).
Definition sleep (secs : Z) : M Chain unit :=
  modify (fun c => mkChain (balance_reply c) (stake_reply c) (compound_reply c)
            (balance_calls c) (stake_calls c) (compound_calls c) (slept c ++ [secs])).

(** An answer of the endpoint, as a computation. *)
Definition answer {St A} (r : pyresult A) : M St A := fun s => (r, s).

Local Open Scope py_scope.

Definition retry3 {A} : M Chain A -> M Chain A :=
  Tenacity.retry sleep (Tenacity.wait_exponential 1 4 10) 3.

(** The body of [get_wallet_balance]: the handler logs and re-raises. *)
Definition get_wallet_balance_body (address : string) : M Chain float :=
  try_except
    (fun c => (balance_reply c address (balance_calls c), tick_balance c))
    (fun e => raise e).

Definition get_wallet_balance (address : string) : M Chain float :=
  retry3 (get_wallet_balance_body address).

(** [w3.to_wei('25', 'gwei')] *)
Definition max_gas_price : Z := 25 * 10 ^ 9.

(** The body of [execute_stake_operation]: every exception ends in
    [return None]. *)
Definition execute_stake_operation_body (wallet : Wallet) (stake_amount : float)
    : M Chain (option string) :=
  try_except
    (c <- get ;;
     let rpc := stake_reply c wallet stake_amount (stake_calls c) in
     modify tick_stake ;;;
     _account <- answer (s_from_key rpc) ;;
     _stake_amount_wei <- answer (s_to_wei rpc) ;;
     _nonce <- answer (s_nonce rpc) ;;
     gas_price <- answer (s_gas_price rpc) ;;
     if max_gas_price <? gas_price then ret None
     else
       _chain_id <- answer (s_chain_id rpc) ;;
       _signed_tx <- answer (s_sign rpc) ;;
       tx_hash <- answer (s_send rpc) ;;
       status <- answer (s_receipt_status rpc) ;;
       if status =? 1 then ret (Some tx_hash) else ret None)
    (fun _ => ret None).

Definition execute_stake_operation (wallet : Wallet) (stake_amount : float)
    : M Chain (option string) :=
  retry3 (execute_stake_operation_body wallet stake_amount).

(** [get_pending_rewards]: a placeholder that returns [0.0]. *)
Definition get_pending_rewards (address : string) : M Chain float :=
  try_except (ret 0%float) (fun _ => ret 0%float).

(** [execute_auto_compound]: not decorated; falls off the end (so returns
    [None]) when the rewards do not exceed 0.1. *)
Definition execute_auto_compound (wallet : Wallet) : M Chain (option string) :=
  try_except
    (pending_rewards <- get_pending_rewards (w_address wallet) ;;
     if (0.1 <? pending_rewards)%float then
       c <- get ;;
       let rpc := compound_reply c wallet (compound_calls c) in
       modify tick_compound ;;;
       _account <- answer (c_from_key rpc) ;;
       _gas_price <- answer (c_gas_price rpc) ;;
       _nonce <- answer (c_nonce rpc) ;;
       _chain_id <- answer (c_chain_id rpc) ;;
       _signed_tx <- answer (c_sign rpc) ;;
       tx_hash <- answer (c_send rpc) ;;
       status <- answer (c_receipt_status rpc) ;;
       if status =? 1 then ret (Some tx_hash) else ret None
     else ret None)
    (fun _ => ret None).

Definition get_wallet_info (address : string) : M Chain WalletInfo :=
  try_except
    (balance <- get_wallet_balance address ;;
     pending_rewards <- get_pending_rewards address ;;
     ret (mkWalletInfo address balance (Some pending_rewards)
                       (balance + pending_rewards)%float None))
    (fun e => ret (mkWalletInfo address 0%float (Some 0%float) 0%float
                                (Some (str_exn e)))).

(** [self.helios_ops] *)
Definition helios_ops : Provider Chain :=
  mkProvider Chain get_wallet_info execute_stake_operation execute_auto_compound.

End HeliosOperations.

(** ** helios_multi_bot.py: the wallet task runner *)

Inductive Status : Type := pending | completed | error.

(** The dict [result] of [process_wallet_operations].  The two keys that
    are added after its creation are optional. *)
Record WalletResult : Type := mkWalletResult {
  wallet_id : string;
  address : string;
  filename : string;
  initial_balance : float;
  final_balance : float;
  stake_tx : option string;
  compound_tx : option string;
  stake_amount : float;
  compound_amount : float;
  status : Status;
  pending_rewards : option float;
  error_msg : option string
}.

Module Runner.

(** What the runner asks of its environment, in program order. *)
Inductive Call : Type :=
  | CallInfo (address : string)
  | CallStake (wallet : Wallet) (amount : float)
  | CallCompound (wallet : Wallet)
  | Sleep (secs : Z).

(** The frame of one call of [process_wallet_operations]: the provider's
    state, the local [result], and the calls made so far. *)
Record Frame (W : Type) : Type := mkFrame {
  world : W;
  result : WalletResult;
  calls : list Call
}.
Arguments mkFrame {W} _ _ _.
Arguments world {W} _.
Arguments result {W} _.
Arguments calls {W} _.

Definition initial_result (wallet : Wallet) : WalletResult :=
  mkWalletResult (w_id wallet) (w_address wallet) (w_filename wallet)
                 0 0 None None 0 0 pending None None.

Definition set_initial (balance : float) (rewards : float) (r : WalletResult) :=
  mkWalletResult (wallet_id r) (address r) (filename r) balance (final_balance r)
    (stake_tx r) (compound_tx r) (stake_amount r) (compound_amount r) (status r)
    (Some rewards) (error_msg r).
Definition set_stake (tx : option string) (amount : float) (r : WalletResult) :=
  mkWalletResult (wallet_id r) (address r) (filename r) (initial_balance r)
    (final_balance r) tx (compound_tx r) amount (compound_amount r) (status r)
    (pending_rewards r) (error_msg r).
Definition set_compound (tx : option string) (amount : float) (r : WalletResult) :=
  mkWalletResult (wallet_id r) (address r) (filename r) (initial_balance r)
    (final_balance r) (stake_tx r) tx (stake_amount r) amount (status r)
    (pending_rewards r) (error_msg r).
Definition set_final (balance : float) (r : WalletResult) :=
  mkWalletResult (wallet_id r) (address r) (filename r) (initial_balance r)
    balance (stake_tx r) (compound_tx r) (stake_amount r) (compound_amount r)
    completed (pending_rewards r) (error_msg r).
Definition set_error (msg : string) (r : WalletResult) :=
  mkWalletResult (wallet_id r) (address r) (filename r) (initial_balance r)
    (final_balance r) (stake_tx r) (compound_tx r) (stake_amount r)
    (compound_amount r) error (pending_rewards r) (Some msg).

Section WithProvider.
Context {W : Type}.
Variable helios_ops : Provider W.

Local Open Scope py_scope.

(** A provider call from inside the frame: noted in [calls], run on
    [world]. *)
Definition call {A} (what : Call) (op : M W A) : M (Frame W) A :=
  fun fr =>
    let (r, w') := op (world fr) in
    (r, mkFrame w' (result fr) (calls fr ++ [what])).

(** [await asyncio.sleep(secs)] *)
Definition asyncio_sleep (secs : Z) : M (Frame W) unit :=
  modify (fun fr => mkFrame (world fr) (result fr) (calls fr ++ [Sleep secs])).

Definition update (f : WalletResult -> WalletResult) : M (Frame W) unit :=
  modify (fun fr => mkFrame (world fr) (f (result fr)) (calls fr)).

(** The [try] block. *)
Definition operations (wallet : Wallet) : M (Frame W) unit :=
  wallet_info <- call (CallInfo (w_address wallet))
                      (get_wallet_info helios_ops (w_address wallet)) ;;
  let rewards := default 0%float (wi_pending_rewards wallet_info) in
  update (set_initial (wi_balance wallet_info) rewards) ;;;
  (if (1.0 <? wi_balance wallet_info)%float then
     let stake_amount := (wi_balance wallet_info * 0.8)%float in
     stake_tx <- call (CallStake wallet stake_amount)
                      (execute_stake_operation helios_ops wallet stake_amount) ;;
     (if truthy stake_tx then update (set_stake stake_tx stake_amount)
      else ret tt) ;;;
     asyncio_sleep 2
   else ret tt) ;;;
  (if (0.1 <? rewards)%float then
     compound_tx <- call (CallCompound wallet)
                         (execute_auto_compound helios_ops wallet) ;;
     if truthy compound_tx then update (set_compound compound_tx rewards)
     else ret tt
   else ret tt) ;;;
  final_info <- call (CallInfo (w_address wallet))
                     (get_wallet_info helios_ops (w_address wallet)) ;;
  update (set_final (wi_balance final_info)) ;;;
  asyncio_sleep 1.

(** The whole method, from a frame whose [result] is the initial dict:
    the handler marks the local [result] and re-raises. *)
Definition process_wallet_operations_frame (wallet : Wallet)
    : M (Frame W) WalletResult :=
  try_except (operations wallet)
             (fun e => update (set_error (str_exn e)) ;;; raise e) ;;;
  fr <- get ;;
  ret (result fr).

(** [await self.process_wallet_operations(wallet)] against the provider
    state [w]: what the caller receives, and the frame as the call left
    it. *)
Definition process_wallet_operations (wallet : Wallet) (w : W)
    : pyresult WalletResult * Frame W :=
  process_wallet_operations_frame wallet (mkFrame w (initial_result wallet) []).
End WithProvider.

End Runner.

(** ** helios_multi_bot.py: the batch coordinator *)

Record Transaction : Type := mkTransaction {
  tx_wallet_id : string;
  tx_stake_tx : option string;
  tx_compound_tx : option string;
  tx_stake_amount : float;
  tx_compound_amount : float
}.

(** The dict [results], with the three keys [run_batch] adds. *)
Record BatchResult : Type := mkBatchResult {
  batch_number : Z;
  processed : Z;
  successful_stakes : Z;
  successful_compounds : Z;
  total_staked : float;
  total_compounded : float;
  errors : Z;
  transactions : list Transaction;
  wallet_details : list WalletResult;
  execution_time : option string;
  start_time : option string;
  end_time : option string
}.

Module Coordinator.

Definition initial_results (batch_number : Z) : BatchResult :=
  mkBatchResult batch_number 0 0 0 0 0 0 [] [] None None None.

(** One round of the aggregation loop.  An element of [wallet_results] is
    an exception instance or a result dict; a result dict is never empty,
    so [if result:] holds for it. *)
Definition aggregate_one (results : BatchResult) (result : pyresult WalletResult)
    : BatchResult :=
  let processed' := processed results + 1 in
  match result with
  | Raise _ =>
      mkBatchResult (batch_number results) processed' (successful_stakes results)
        (successful_compounds results) (total_staked results)
        (total_compounded results) (errors results + 1) (transactions results)
        (wallet_details results) (execution_time results) (start_time results)
        (end_time results)
  | Ret result =>
      let staked := truthy (stake_tx result) in
      let compounded := truthy (compound_tx result) in
      mkBatchResult (batch_number results) processed'
        (if staked then successful_stakes results + 1 else successful_stakes results)
        (if compounded then successful_compounds results + 1
         else successful_compounds results)
        (if staked then (total_staked results + stake_amount result)%float
         else total_staked results)
        (if compounded then (total_compounded results + compound_amount result)%float
         else total_compounded results)
        (errors results)
        (if staked || compounded
         then transactions results ++
              [mkTransaction (wallet_id result) (stake_tx result) (compound_tx result)
                             (stake_amount result) (compound_amount result)]
         else transactions results)
        (wallet_details results ++ [result])
        (execution_time results) (start_time results) (end_time results)
  end.

(** [for i, result in enumerate(wallet_results): ...] *)
Definition aggregate (batch_number : Z) (wallet_results : list (pyresult WalletResult))
    : BatchResult :=
  fold_left aggregate_one wallet_results (initial_results batch_number).

Section WithProvider.
Context {W : Type}.
Variable helios_ops : Provider W.

(** [asyncio.gather] over the tasks, with [return_exceptions=True]: one outcome
    per wallet, in dispatch order.  The tasks interleave at their
    suspension points; [view i] is the provider as the task dispatched
    at position [i] meets it. *)
Definition gather (view : nat -> W) (wallets : list Wallet)
    : list (pyresult WalletResult) :=
  imap (fun i wallet =>
          fst (Runner.process_wallet_operations helios_ops wallet (view i)))
       wallets.

Definition process_wallet_batch (batch_number : Z) (view : nat -> W)
    (wallets : list Wallet) : BatchResult :=
  aggregate batch_number (gather view wallets).
End WithProvider.

End Coordinator.

(** ** The process environment: files, clock, standard output, log *)

(** A value handed to [json.dump]. *)
Inductive json : Type :=
  | JNull
  | JInt (n : Z)
  | JFloat (x : float)
  | JStr (s : string)
  | JList (items : list json)
  | JObj (members : list (string * json)).

(** What a file holds: text, or the document [json.dump] wrote. *)
Inductive content : Type :=
  | Text (s : string)
  | Json (j : json).

(** One piece of a formatted line: literal text, [{n}] for an [int],
    [{x:.4f}] for a [float]. *)
Inductive Item : Type :=
  | Str (s : string)
  | Int (n : Z)
  | Fixed4 (x : float).

Inductive Level : Type := INFO | ERROR.

(** A value of [datetime.now()]. *)
Record datetime : Type := mkDatetime {
  year : nat; month : nat; day : nat;
  hour : nat; minute : nat; second : nat;
  microsecond : nat
}.

Module Datetime.

Fixpoint zeros (n : nat) : string :=
  match n with
  | O => ""
  | S k => "0" +:+ zeros k
  end.

(** [n] in decimal, zero-filled to [width] digits. *)
Definition zfill (width n : nat) : string :=
  let s := NilZero.string_of_uint (Nat.to_uint n) in
  zeros (width - String.length s) +:+ s.

(** [t.strftime('%Y%m%d_%H%M%S')] *)
Definition strftime_stamp (t : datetime) : string :=
  zfill 4 (year t) +:+ zfill 2 (month t) +:+ zfill 2 (day t) +:+ "_" +:+
  zfill 2 (hour t) +:+ zfill 2 (minute t) +:+ zfill 2 (second t).

(** [t.isoformat()] *)
Definition isoformat (t : datetime) : string :=
  zfill 4 (year t) +:+ "-" +:+ zfill 2 (month t) +:+ "-" +:+ zfill 2 (day t) +:+
  "T" +:+ zfill 2 (hour t) +:+ ":" +:+ zfill 2 (minute t) +:+ ":" +:+
  zfill 2 (second t) +:+
  (if Nat.eqb (microsecond t) 0 then "" else "." +:+ zfill 6 (microsecond t)).

End Datetime.

Record Proc : Type := mkProc {
  files : gmap string content;
  writable : string -> bool;      (* does [open(path, 'w')] succeed *)
  clock : nat -> datetime;        (* the n-th reading of the clock *)
  ticks : nat;
  stdout : list (list Item);
  logs : list (Level * list Item)
}.

Module Os.

Local Open Scope py_scope.

(** [with open(path, 'w') as f:] followed by one write of [c]. *)
Definition write_file (path : string) (c : content) : M Proc unit :=
  fun p =>
    if writable p path
    then (Ret tt, mkProc (<[path := c]> (files p)) (writable p) (clock p)
                         (ticks p) (stdout p) (logs p))
    else (Raise (OSError ("Permission denied: " +:+ path)), p).

(** [Path(path).exists()] *)
Definition exists_ (path : string) : M Proc bool :=
  fun p => (Ret (bool_decide (is_Some (files p !! path))), p).

(** [datetime.now()] *)
Definition now : M Proc datetime :=
  fun p => (Ret (clock p (ticks p)),
            mkProc (files p) (writable p) (clock p) (S (ticks p)) (stdout p) (logs p)).

(** [print(line)] *)
Definition print (line : list Item) : M Proc unit :=
  modify (fun p => mkProc (files p) (writable p) (clock p) (ticks p)
                          (stdout p ++ [line]) (logs p)).

(** [logging.info(line)], [logging.error(line)] *)
Definition log (lvl : Level) (line : list Item) : M Proc unit :=
  modify (fun p => mkProc (files p) (writable p) (clock p) (ticks p)
                          (stdout p) (logs p ++ [(lvl, line)])).

(** [for x in xs: body x] *)
Fixpoint for_each {St A} (xs : list A) (body : A -> M St unit) : M St unit :=
  match xs with
  | [] => ret tt
  | x :: xs' => body x ;;; for_each xs' body
  end.

End Os.

(** ** wallet_manager.py: the sample files *)

Module WalletFileManager.

Local Open Scope py_scope.

Definition wallets_dir : string := "wallets".

Definition newline : string := String (Ascii.ascii_of_nat 10) "".

Definition sample_files : list (string * list string) :=
  [ ("main_wallets.txt",
     [ "# Main wallet private keys - one per line";
       "# Lines starting with # are ignored";
       "your_private_key_1_here";
       "your_private_key_2_here" ]);
    ("backup_wallets.txt",
     [ "# Backup wallet private keys";
       "your_private_key_3_here";
       "your_private_key_4_here" ]) ].

Definition create_sample_wallet_files : M Proc unit :=
  Os.for_each sample_files (fun '(filename, lines) =>
    let file_path := wallets_dir +:+ "/" +:+ filename in
    present <- Os.exists_ file_path ;;
    if present then ret tt
    else
      Os.write_file file_path (Text (String.concat newline lines)) ;;;
      Os.log INFO [Str "Created sample file: "; Str filename]).

End WalletFileManager.

(** ** helios_multi_bot.py: the report assembler and [run_batch] *)

Module Report.

Local Open Scope py_scope.

Definition opt_str (o : option string) : json :=
  match o with None => JNull | Some s => JStr s end.

Definition status_str (s : Status) : string :=
  match s with
  | pending => "pending"
  | completed => "completed"
  | error => "error"
  end.

(** A result dict as [json.dump] sees it, keys in insertion order. *)
Definition wallet_result_json (r : WalletResult) : json :=
  JObj ([ ("wallet_id", JStr (wallet_id r));
          ("address", JStr (address r));
          ("filename", JStr (filename r));
          ("initial_balance", JFloat (initial_balance r));
          ("final_balance", JFloat (final_balance r));
          ("stake_tx", opt_str (stake_tx r));
          ("compound_tx", opt_str (compound_tx r));
          ("stake_amount", JFloat (stake_amount r));
          ("compound_amount", JFloat (compound_amount r));
          ("status", JStr (status_str (status r))) ]
        ++ match pending_rewards r with
           | Some x => [("pending_rewards", JFloat x)]
           | None => []
           end
        ++ match error_msg r with
           | Some m => [("error", JStr m)]
           | None => []
           end).

Definition transaction_json (t : Transaction) : json :=
  JObj [ ("wallet_id", JStr (tx_wallet_id t));
         ("stake_tx", opt_str (tx_stake_tx t));
         ("compound_tx", opt_str (tx_compound_tx t));
         ("stake_amount", JFloat (tx_stake_amount t));
         ("compound_amount", JFloat (tx_compound_amount t)) ].

Definition report_file (batch_number : Z) (timestamp : string) : string :=
  "reports/batch_" +:+ str_int batch_number +:+ "_" +:+ timestamp +:+ ".json".

Definition latest_file (batch_number : Z) : string :=
  "reports/batch_" +:+ str_int batch_number +:+ "_latest.json".

(** The dict [report_data]; [batch_number] is [self.batch_number]. *)
Definition report_data (batch_number : Z) (iso : string) (results : BatchResult)
    : json :=
  JObj [ ("batch_number", JInt batch_number);
         ("timestamp", JStr iso);
         ("summary",
          JObj [ ("wallets_processed", JInt (processed results));
                 ("successful_stakes", JInt (successful_stakes results));
                 ("successful_compounds", JInt (successful_compounds results));
                 ("total_staked_hls", JFloat (total_staked results));
                 ("total_compounded_hls", JFloat (total_compounded results));
                 ("errors", JInt (errors results));
                 ("execution_time", opt_str (execution_time results)) ]);
         ("transactions", JList (map transaction_json (transactions results)));
         ("wallet_details", JList (map wallet_result_json (wallet_details results))) ].

Definition generate_batch_report (batch_number : Z) (results : BatchResult)
    : M Proc unit :=
  t1 <- Os.now ;;
  let timestamp := Datetime.strftime_stamp t1 in
  let report_file := report_file batch_number timestamp in
  let latest_file := latest_file batch_number in
  t2 <- Os.now ;;
  let report_data := report_data batch_number (Datetime.isoformat t2) results in
  Os.write_file report_file (Json report_data) ;;;
  Os.write_file latest_file (Json report_data) ;;;
  Os.log INFO [Str "Report saved: "; Str report_file].

Fixpoint repeat_str (s : string) (n : nat) : string :=
  match n with
  | O => ""
  | S k => s +:+ repeat_str s k
  end.

Definition rule : string := repeat_str "=" 60.

Definition print_batch_summary (results : BatchResult) : M Proc unit :=
  Os.print [Str WalletFileManager.newline; Str rule] ;;;
  Os.print [Str "HELIOS BOT BATCH "; Int (batch_number results); Str " SUMMARY"] ;;;
  Os.print [Str rule] ;;;
  Os.print [Str "Wallets Processed: "; Int (processed results)] ;;;
  Os.print [Str "Successful Stakes: "; Int (successful_stakes results)] ;;;
  Os.print [Str "Successful Compounds: "; Int (successful_compounds results)] ;;;
  Os.print [Str "Total Staked: "; Fixed4 (total_staked results); Str " HLS"] ;;;
  Os.print [Str "Total Compounded: "; Fixed4 (total_compounded results); Str " HLS"] ;;;
  Os.print [Str "Errors: "; Int (errors results)] ;;;
  Os.print [Str "Execution Time: "; Str (default "N/A" (execution_time results))] ;;;
  (match transactions results with
   | [] => ret tt
   | _ :: _ =>
       Os.print [Str WalletFileManager.newline; Str "Recent Transactions:"] ;;;
       Os.for_each
         (slice (transactions results) (-5)
                (Z.of_nat (length (transactions results))))
         (fun tx => Os.print [Str "  "; Str (tx_wallet_id tx); Str ": Stake=";
                              Fixed4 (tx_stake_amount tx); Str " HLS"])
   end) ;;;
  Os.print [Str rule; Str WalletFileManager.newline].

(** The three assignments to [results] in [run_batch]. *)
Definition set_times (elapsed started ended : string) (results : BatchResult)
    : BatchResult :=
  mkBatchResult (batch_number results) (processed results)
    (successful_stakes results) (successful_compounds results)
    (total_staked results) (total_compounded results) (errors results)
    (transactions results) (wallet_details results)
    (Some elapsed) (Some started) (Some ended).

Section RunBatch.
Context {W : Type}.
Variable helios_ops : Provider W.
(** [str(end_time - start_time)] *)
Variable str_elapsed : datetime -> datetime -> string.

(** The [try] block of [run_batch], after [load_all_wallet_files] has
    returned [all_wallets]. *)
Definition run_batch_body (batch_number total_batches : Z)
    (all_wallets : WalletFiles) (view : nat -> W) : M Proc unit :=
  Os.log INFO [Str "Starting Helios Multi-Wallet Bot - Batch "; Int batch_number] ;;;
  match all_wallets with
  | [] =>
      Os.log ERROR [Str "No wallet files found! Please add .txt files to wallets/ directory"] ;;;
      WalletFileManager.create_sample_wallet_files
  | _ :: _ =>
      batch_wallets <-
        HeliosOperations.answer
          (Partitioner.get_batch_wallets batch_number total_batches all_wallets) ;;
      match batch_wallets with
      | [] => Os.log INFO [Str "No wallets to process in batch "; Int batch_number]
      | _ :: _ =>
          Os.log INFO [Str "Starting batch "; Int batch_number; Str " with ";
                       Int (Z.of_nat (length batch_wallets)); Str " wallets"] ;;;
          start <- Os.now ;;
          let results :=
            Coordinator.process_wallet_batch helios_ops batch_number view
                                             batch_wallets in
          finish <- Os.now ;;
          let results :=
            set_times (str_elapsed start finish) (Datetime.isoformat start)
                      (Datetime.isoformat finish) results in
          generate_batch_report batch_number results ;;;
          print_batch_summary results ;;;
          Os.log INFO [Str "Batch "; Int batch_number; Str " completed successfully"]
      end
  end.

Definition run_batch (batch_number total_batches : Z)
    (all_wallets : WalletFiles) (view : nat -> W) : M Proc unit :=
  try_except (run_batch_body batch_number total_batches all_wallets view)
    (fun e =>
       Os.log ERROR [Str "Batch "; Int batch_number; Str " failed: ";
                     Str (str_exn e)] ;;;
       raise e).
End RunBatch.

End Report.

(** ** wallet_manager.py: loading and splitting the wallet files *)

Module WalletLoading.

Local Open Scope py_scope.

(** [c.isspace()] for a character below U+0100, the characters a
    [string] of this development holds. *)
Definition isspace (c : Ascii.ascii) : bool :=
  let n := Ascii.nat_of_ascii c in
  ((9 <=? n) && (n <=? 13))%nat || ((28 <=? n) && (n <=? 32))%nat
  || (n =? 133)%nat || (n =? 160)%nat.

(** [s.lstrip()] *)
Fixpoint lstrip (s : string) : string :=
  match s with
  | EmptyString => EmptyString
  | String c s' => if isspace c then lstrip s' else s
  end.

(** [s.rstrip()]: a character stays when it is not a space or when
    something stays after it. *)
Fixpoint rstrip (s : string) : string :=
  match s with
  | EmptyString => EmptyString
  | String c s' =>
      match rstrip s' with
      | EmptyString => if isspace c then EmptyString else String c EmptyString
      | String _ _ as kept => String c kept
      end
  end.

(** [s.strip()] *)
Definition strip (s : string) : string := rstrip (lstrip s).

(** [s.startswith(prefix)] *)
Definition startswith (prefix s : string) : bool := String.prefix prefix s.

(** [s.replace('.txt', '')], scanning from the left: [skip] characters of
    an occurrence already found are still to be dropped. *)
Fixpoint remove_txt_from (skip : nat) (s : string) : string :=
  match s with
  | EmptyString => EmptyString
  | String c s' =>
      match skip with
      | S k => remove_txt_from k s'
      | O => if startswith ".txt" s then remove_txt_from 3 s'
             else String c (remove_txt_from 0 s')
      end
  end.

Definition remove_txt (s : string) : string := remove_txt_from 0 s.

Section Loading.
(** [Account.from_key(private_key).address], which raises on a key that
    is not valid. *)
Variable from_key : string -> pyresult string.

(** The body of the loop over [enumerate(lines)], for the line at index
    [i]: the wallets it appends. *)
Definition wallet_of_line (filename : string) (i : nat) (line : string)
    : list Wallet :=
  let line := strip line in
  if truthy_str line && negb (startswith "#" line) then
    let private_key := if startswith "0x" line then line else "0x" +:+ line in
    match from_key private_key with
    | Ret address =>
        [ mkWallet (remove_txt filename +:+ "_" +:+ str_int (Z.of_nat i + 1))
                   private_key address filename (Z.of_nat i + 1) ]
    | Raise _ => []
    end
  else [].

(** The loop, over the lines from index [i] on. *)
Fixpoint wallets_from (filename : string) (i : nat) (lines : list string)
    : list Wallet :=
  match lines with
  | [] => []
  | line :: rest => wallet_of_line filename i line ++ wallets_from filename (S i) rest
  end.

(** [load_wallets_from_txt(filename)], given what the file system
    answers: [None] when the file does not exist, else the outcome of
    opening it and of [readlines()]. *)
Definition load_wallets_from_txt (filename : string)
    (file : option (pyresult (list string))) : list Wallet :=
  match file with
  | None => []
  | Some (Raise _) => []
  | Some (Ret lines) => wallets_from filename 0 lines
  end.

(** [d[key] = value] on a dict kept in insertion order. *)
Fixpoint dict_set {V} (key : string) (value : V) (d : list (string * V))
    : list (string * V) :=
  match d with
  | [] => [(key, value)]
  | (k, v) :: d' =>
      if String.eqb k key then (k, value) :: d' else (k, v) :: dict_set key value d'
  end.

(** [load_all_wallet_files()], given the names [glob("*.txt")] found and
    what reading each of them answers. *)
Definition load_all_wallet_files (txt_files : list string)
    (read : string -> option (pyresult (list string))) : WalletFiles :=
  fold_left (fun all_wallets filename =>
               match load_wallets_from_txt filename (read filename) with
               | [] => all_wallets
               | (_ :: _) as wallets => dict_set filename wallets all_wallets
               end)
            txt_files [].
End Loading.

(** [range(0, stop, step)] as a list; a zero step is a [ValueError], kept
    here with its message. *)
Definition range0 (stop step : Z) : pyresult (list Z) :=
  if step =? 0 then Raise (Exception "range() arg 3 must not be zero")
  else if (step <? 0) || (stop <=? 0) then Ret []
  else Ret (map (fun k => Z.of_nat k * step)
                (seq 0 (Z.to_nat ((stop + step - 1) / step)))).

(** [split_wallets_into_batches(all_wallets, batch_size)] *)
Definition split_wallets_into_batches (all_wallets : WalletFiles) (batch_size : Z)
    : pyresult (list (list Wallet)) :=
  let flat_wallets := Partitioner.flatten all_wallets in
  match range0 (Z.of_nat (length flat_wallets)) batch_size with
  | Raise e => Raise e
  | Ret starts => Ret (map (fun i => slice flat_wallets i (i + batch_size)) starts)
  end.

End WalletLoading.

(** ** helios_operations.py: the bridge operation *)

Module Bridge.

Local Open Scope py_scope.

(** What web3 and eth_account answer during [execute_bridge_operation],
    call by call, in the order of the source. *)
Record BridgeRpc : Type := mkBridgeRpc {
  b_from_key : pyresult string;
  b_to_wei : pyresult Z;
  b_gas_price : pyresult Z;
  b_nonce : pyresult Z;
  b_chain_id : pyresult Z;
  b_sign : pyresult string;
  b_send : pyresult string;
  b_receipt_status : pyresult Z
}.

(** [execute_bridge_operation]: every exception ends in [return None];
    there is no gas price ceiling and no retry. *)
Definition execute_bridge_operation {St} (rpc : BridgeRpc) : M St (option string) :=
  try_except
    (_account <- HeliosOperations.answer (b_from_key rpc) ;;
     _value <- HeliosOperations.answer (b_to_wei rpc) ;;
     _gas_price <- HeliosOperations.answer (b_gas_price rpc) ;;
     _nonce <- HeliosOperations.answer (b_nonce rpc) ;;
     _chain_id <- HeliosOperations.answer (b_chain_id rpc) ;;
     _signed_tx <- HeliosOperations.answer (b_sign rpc) ;;
     tx_hash <- HeliosOperations.answer (b_send rpc) ;;
     status <- HeliosOperations.answer (b_receipt_status rpc) ;;
     if status =? 1 then ret (Some tx_hash) else ret None)
    (fun _ => ret None).

End Bridge.

(** * Specification-side definitions *)

(** ** Floats that are not below zero *)

Module FloatSpec.

(** A specification float that does not compare below zero: a zero of
    either sign, a positive finite number or positive infinity. *)
Definition nonneg_sf (x : spec_float) : Prop :=
  match x with
  | S754_zero _ => True
  | S754_infinity s | S754_finite s _ _ => s = false
  | S754_nan => False
  end.

(** Above one: a positive finite number or positive infinity. *)
Definition pos_sf (x : spec_float) : Prop :=
  match x with
  | S754_infinity s | S754_finite s _ _ => s = false
  | _ => False
  end.

End FloatSpec.

(** ** The aggregate of a batch, as the design states it *)

Module Aggregates.

(** The results of the tasks that returned, in dispatch order. *)
Definition returned (outcomes : list (pyresult WalletResult)) : list WalletResult :=
  omap (fun o => match o with Ret r => Some r | Raise _ => None end) outcomes.

(** How many tasks raised. *)
Definition raised (outcomes : list (pyresult WalletResult)) : nat :=
  length (filter (fun o => is_ret o = false) outcomes).

(** The results that carry a stake (a compound) transaction id. *)
Definition staked (rs : list WalletResult) : list WalletResult :=
  filter (fun r => truthy (stake_tx r) = true) rs.
Definition compounded (rs : list WalletResult) : list WalletResult :=
  filter (fun r => truthy (compound_tx r) = true) rs.

(** [0.0 + x1 + ... + xn], added from left to right. *)
Definition float_sum (xs : list float) : float := fold_left PrimFloat.add xs 0%float.

Definition summary_of (r : WalletResult) : Transaction :=
  mkTransaction (wallet_id r) (stake_tx r) (compound_tx r)
                (stake_amount r) (compound_amount r).

(** What the runner records about a stake: nothing, or a transaction id
    together with four fifths of a balance above one. *)
Definition stake_recorded (r : WalletResult) : Prop :=
  (stake_tx r = None /\ stake_amount r = 0%float)
  \/ (truthy (stake_tx r) = true
      /\ exists balance, (1.0 <? balance)%float = true
                         /\ stake_amount r = (balance * 0.8)%float).

(** An outcome as the runner produces it. *)
Definition runner_made (o : pyresult WalletResult) : Prop :=
  match o with
  | Ret r => status r = completed /\ stake_recorded r
  | Raise _ => True
  end.

End Aggregates.

(** ** States of the process *)

Module ProcSpec.
(** The process after [lines] have been printed. *)
Definition printed (p : Proc) (lines : list (list Item)) : Proc :=
  mkProc (files p) (writable p) (clock p) (ticks p) (stdout p ++ lines) (logs p).
(** The process after [entries] have been logged. *)
Definition logged (p : Proc) (entries : list (Level * list Item)) : Proc :=
  mkProc (files p) (writable p) (clock p) (ticks p) (stdout p) (logs p ++ entries).
(** The process after [n] readings of the clock. *)
Definition ticked (p : Proc) (n : nat) : Proc :=
  mkProc (files p) (writable p) (clock p) (n + ticks p) (stdout p) (logs p).
End ProcSpec.

(** ** One round of sample file creation *)

Module SampleSpec.
Import ProcSpec.
End SampleSpec.

(** What loading the wallet files guarantees. *)

Module LoadingSpec.
Import WalletLoading.
(** What a loaded wallet owes to the line it comes from: the line at its
    1-based line number, stripped, is neither empty nor a comment; the
    key is that text, with [0x] put in front when it was missing; the
    address is the one [from_key] answers; the id is the file name
    without [.txt], an underscore and the line number. *)
Definition from_line (from_key : string -> pyresult string) (filename : string)
    (lines : list string) (w : Wallet) : Prop :=
  exists (i : nat) (line : string),
    lines !! i = Some line
    /\ w_line_number w = Z.of_nat i + 1
    /\ truthy_str (strip line) = true
    /\ startswith "#" (strip line) = false
    /\ w_private_key w
       = (if startswith "0x" (strip line) then strip line else "0x" +:+ strip line)
    /\ startswith "0x" (w_private_key w) = true
    /\ from_key (w_private_key w) = Ret (w_address w)
    /\ w_filename w = filename
    /\ w_id w = remove_txt filename +:+ "_" +:+ str_int (w_line_number w).

(** The dict [load_all_wallet_files] builds when no two of the file
    names are equal: the files that gave a wallet, in the order found,
    each with its wallets. *)
Definition loaded_files (from_key : string -> pyresult string)
    (txt_files : list string) (read : string -> option (pyresult (list string)))
    : WalletFiles :=
  omap (fun filename =>
          match load_wallets_from_txt from_key filename (read filename) with
          | [] => None
          | (_ :: _) as wallets => Some (filename, wallets)
          end)
       txt_files.
End LoadingSpec.

(** * Sample inputs *)

Module Samples.

(** Seven wallets in two files, as [load_all_wallet_files] returns them. *)
Definition wallet_n (n : Z) : Wallet :=
  mkWallet ("main_" +:+ str_int n) ("0xkey" +:+ str_int n)
           ("0xaddr" +:+ str_int n) "main.txt" n.

Definition seven_wallets : WalletFiles :=
  [ ("main.txt", [wallet_n 1; wallet_n 2; wallet_n 3; wallet_n 4]);
    ("backup.txt", [wallet_n 5; wallet_n 6; wallet_n 7]) ].

(** A provider that always answers: balance 2.0, rewards 0.05, a stake
    transaction id, and no compound transaction. *)
Definition steady_info : WalletInfo :=
  mkWalletInfo "0xaddr1" 2.0 (Some 0.05%float) 2.05 None.

Definition steady_provider : Provider unit :=
  mkProvider unit (fun _ => ret steady_info)
             (fun _ _ => ret (Some "0xfeed"))
             (fun _ => ret None).

(** A chain endpoint whose balance reads answer [balance_reply], on which
    every stake call goes through, and which has served no call yet. *)
Definition chain_with (balance_reply : string -> nat -> pyresult float)
    : HeliosOperations.Chain :=
  HeliosOperations.mkChain balance_reply
    (fun _ _ _ =>
       HeliosOperations.mkStakeRpc (Ret "0xaccount") (Ret 1) (Ret 0) (Ret (10 ^ 9))
         (Ret 42) (Ret "0xraw") (Ret "0xstake") (Ret 1))
    (fun _ _ =>
       HeliosOperations.mkCompoundRpc (Ret "0xaccount") (Ret (10 ^ 9)) (Ret 0)
         (Ret 42) (Ret "0xraw") (Ret "0xcompound") (Ret 1))
    0 0 0 [].

(** An endpoint whose every balance read times out. *)
Definition dead_chain : HeliosOperations.Chain :=
  chain_with (fun _ _ => Raise (Exception "connection timed out")).

(** A clock reading on 15 January 2025, shortly after noon. *)
Definition noon (second microsecond : nat) : datetime :=
  mkDatetime 2025 1 15 12 0 second microsecond.

(** A process with no file, nothing printed or logged, and every path
    writable. *)
Definition open_proc (clock : nat -> datetime) : Proc :=
  mkProc ∅ (fun _ => true) clock 0 [] [].

(*SAMPLES-END*)
End Samples.

(** * Properties *)

(** ** Signs of binary64 sums and products *)

Module FloatFacts.
Import FloatSpec.

Lemma shr_1_nonneg mrs : 0 <= shr_m mrs -> 0 <= shr_m (shr_1 mrs).
Proof.
  destruct mrs as [m r s]. simpl.
  destruct m as [|p|p]; [done| |lia]. by destruct p.
Qed.

Lemma iter_pos_nonneg p : forall mrs,
  0 <= shr_m mrs -> 0 <= shr_m (iter_pos shr_1 p mrs).
Proof.
  induction p as [p IH|p IH|]; intros mrs H; simpl.
  - apply IH, IH. by apply shr_1_nonneg.
  - by apply IH, IH.
  - by apply shr_1_nonneg.
Qed.

Lemma shr_fexp_nonneg prec emax m e l :
  0 <= m -> 0 <= shr_m (fst (shr_fexp prec emax m e l)).
Proof.
  intros Hm. unfold shr_fexp, shr.
  assert (H0 : 0 <= shr_m (shr_record_of_loc m l)).
  { destruct l as [|[]]; simpl; lia. }
  destruct (_ - e) as [|p|p]; simpl; [done| |done].
  by apply iter_pos_nonneg.
Qed.

Lemma round_nearest_even_nonneg m l : 0 <= m -> 0 <= round_nearest_even m l.
Proof.
  intros Hm. destruct l as [|[]]; simpl; try lia. destruct (Z.even m); lia.
Qed.

(** Rounding a non-negative mantissa with a clear sign bit never yields a
    negative number or a NaN. *)
Lemma binary_round_aux_nonneg prec emax m e l :
  0 <= m -> nonneg_sf (binary_round_aux prec emax false m e l).
Proof.
  intros Hm. unfold binary_round_aux.
  pose proof (shr_fexp_nonneg prec emax m e l Hm) as H1.
  destruct (shr_fexp prec emax m e l) as [mrs' e']. simpl in H1.
  pose proof (shr_fexp_nonneg prec emax _ e' loc_Exact
                (round_nearest_even_nonneg _ (loc_of_shr_record mrs') H1)) as H2.
  destruct (shr_fexp prec emax _ e' loc_Exact) as [mrs'' e'']. simpl in H2.
  destruct (shr_m mrs'') as [|p|p]; simpl; [done| |lia].
  by destruct (_ <=? _).
Qed.

Lemma SFadd_nonneg prec emax x y :
  nonneg_sf x -> nonneg_sf y -> nonneg_sf (SFadd prec emax x y).
Proof.
  destruct x as [sx|sx| |sx mx ex], y as [sy|sy| |sy my ey]; simpl;
    try done; intros Hx Hy; subst; try done.
  - by destruct sx, sy.
  - unfold binary_normalize, binary_round.
    destruct (shl_align mx ex _) as [mx' ex'], (shl_align my ey _) as [my' ey'].
    simpl. destruct (shl_align _ _ _) as [mz ez].
    by apply binary_round_aux_nonneg.
Qed.

Lemma SFmul_pos_nonneg prec emax x y :
  pos_sf x -> pos_sf y -> nonneg_sf (SFmul prec emax x y).
Proof.
  destruct x as [sx|sx| |sx mx ex], y as [sy|sy| |sy my ey]; simpl;
    try done; intros Hx Hy; subst; try done.
  by apply binary_round_aux_nonneg.
Qed.

Lemma leb_zero_nonneg (x : float) :
  (0 <=? x)%float = true <-> nonneg_sf (Prim2SF x).
Proof.
  rewrite leb_spec. change (Prim2SF 0) with (S754_zero false).
  unfold SFleb. destruct (Prim2SF x) as [s|s| |s m e]; simpl;
    try destruct s; split; intros; done.
Qed.

Lemma ltb_one_pos (x : float) :
  (1 <? x)%float = true -> pos_sf (Prim2SF x).
Proof.
  rewrite ltb_spec. unfold SFltb.
  destruct (Prim2SF x) as [s|s| |s m e]; vm_compute; try destruct s; try done.
Qed.

(** The sum of two floats that are not below zero is not below zero. *)
Lemma add_nonneg (x y : float) :
  (0 <=? x)%float = true -> (0 <=? y)%float = true ->
  (0 <=? x + y)%float = true.
Proof.
  rewrite !leb_zero_nonneg, add_spec. apply SFadd_nonneg.
Qed.

(** Four fifths of a balance above one is not below zero. *)
Lemma mul_08_nonneg (x : float) :
  (1 <? x)%float = true -> (0 <=? x * 0.8)%float = true.
Proof.
  intros Hx. rewrite leb_zero_nonneg, mul_spec.
  apply SFmul_pos_nonneg; [by apply ltb_one_pos|]. by vm_compute.
Qed.

Lemma leb_zero_not_ltb (x : float) :
  (0 <=? x)%float = true -> (x <? 0)%float = false.
Proof.
  rewrite leb_spec, ltb_spec. change (Prim2SF 0) with (S754_zero false).
  unfold SFleb, SFltb.
  destruct (Prim2SF x) as [s|s| |s m e]; simpl; try destruct s; done.
Qed.

End FloatFacts.

(** ** The batch partitioner *)

Module PartitionerFacts.
Import Partitioner Samples.

Section Chunks.
Context {A : Type}.

(** The slice of a batch whose bounds lie as [get_batch_wallets]
    computes them is the chunk of [size] elements at [start]. *)
Lemma slice_chunk (l : list A) (start size : Z) :
  0 <= start -> 0 < size ->
  slice l start (Z.min (start + size) (Z.of_nat (length l)))
  = firstn (Z.to_nat size) (skipn (Z.to_nat start) l).
Proof.
  intros Hs Hb. unfold slice, slice_bound.
  set (n := Z.of_nat (length l)).
  assert (Hn : 0 <= n) by (subst n; lia).
  destruct (Z.ltb_spec start 0) as [|_]; [lia|].
  destruct (Z.ltb_spec (Z.min (start + size) n) 0) as [|_]; [lia|].
  destruct (Z.le_gt_cases start n) as [Hle|Hgt].
  - rewrite (Z.min_l start n) by lia.
    rewrite (Z.min_l (Z.min _ _) n) by lia.
    destruct (Z.le_gt_cases (start + size) n) as [Hfit|Hcut].
    + rewrite Z.min_l by lia. f_equal. lia.
    + rewrite Z.min_r by lia.
      rewrite !firstn_all2; [done| |]; rewrite length_skipn; unfold n in *; lia.
  - rewrite (Z.min_r start n) by lia.
    assert (Hall : skipn (Z.to_nat start) l = []).
    { apply skipn_all2. unfold n in *. lia. }
    rewrite Hall, firstn_nil.
    replace (Z.min (Z.min (start + size) n) n - n) with 0 by lia.
    done.
Qed.

(** Cutting a list into [m] consecutive chunks of [b] elements loses
    nothing once [m * b] reaches its length. *)
Lemma concat_chunks (b : nat) :
  (0 < b)%nat ->
  forall (m : nat) (l : list A),
    (length l <= m * b)%nat ->
    concat (map (fun i => firstn b (skipn (i * b) l)) (seq 0 m)) = l.
Proof.
  intros Hb. induction m as [|m IH]; intros l Hlen.
  - destruct l; [done | simpl in Hlen; lia].
  - cbn [seq map concat]. rewrite <- seq_shift, map_map.
    rewrite (map_ext _ (fun i => firstn b (skipn (i * b) (skipn b l)))).
    + rewrite IH by (rewrite length_skipn; lia).
      simpl. apply firstn_skipn.
    + intros i. rewrite skipn_skipn. do 2 f_equal. lia.
Qed.
End Chunks.

(** Two different members of a family of lists whose concatenation has no
    duplicate share no element. *)
Lemma NoDup_concat_disjoint {A} (ps : list (list A)) :
  NoDup (concat ps) ->
  forall i j p q x, i <> j -> ps !! i = Some p -> ps !! j = Some q ->
                    x ∈ p -> x ∉ q.
Proof.
  induction ps as [|p0 ps IH]; intros Hnd i j p q x Hij Hp Hq Hx Hx'.
  - by rewrite lookup_nil in Hp.
  - simpl in Hnd. apply NoDup_app in Hnd as (_ & Hdis & Hnd).
    assert (Hin : forall k r y, ps !! k = Some r -> y ∈ r -> y ∈ concat ps).
    { intros k r y Hk Hy. apply list_elem_of_In, in_concat.
      exists r. split; [|by apply list_elem_of_In].
      apply list_elem_of_In. by eapply list_elem_of_lookup_2. }
    destruct i as [|i], j as [|j]; simpl in Hp, Hq; simplify_eq.
    + eapply Hdis; [exact Hx|]. by eapply Hin.
    + eapply Hdis; [exact Hx'|]. by eapply Hin.
    + eapply (IH Hnd i j); eauto.
Qed.

Lemma batch_size_pos (tb n : Z) :
  1 <= tb -> 0 <= n ->
  exists size, batch_size tb n = Ret size /\ 1 <= size /\ n <= tb * size
               /\ (0 < n -> (size - 1) * tb < n).
Proof.
  intros Htb Hn. unfold batch_size, floordiv.
  destruct (Z.eqb_spec tb 0) as [|_]; [lia|].
  eexists. split; [reflexivity|].
  pose proof (Z.div_mod (n + tb - 1) tb ltac:(lia)) as Hdm.
  pose proof (Z.mod_pos_bound (n + tb - 1) tb ltac:(lia)) as Hmod.
  split; [lia|]. split; [nia|]. intros Hpos.
  assert (1 <= (n + tb - 1) / tb) by (apply Z.div_le_lower_bound; lia).
  rewrite Z.max_r by lia. nia.
Qed.

(** On a non-empty wallet list, batch [k >= 1] is the [k]-th chunk. *)
Lemma get_batch_wallets_chunk (k tb : Z) (aw : WalletFiles) (size : Z) :
  1 <= k -> 1 <= size ->
  flatten aw <> [] ->
  batch_size tb (Z.of_nat (length (flatten aw))) = Ret size ->
  get_batch_wallets k tb aw
  = Ret (firstn (Z.to_nat size)
                (skipn (Z.to_nat (k - 1) * Z.to_nat size) (flatten aw))).
Proof.
  intros Hk Hsz Hne Hbs. unfold get_batch_wallets.
  destruct (Z.eqb_spec (Z.of_nat (length (flatten aw))) 0) as [Hz|_].
  { destruct (flatten aw); [done | simpl in Hz; lia]. }
  rewrite Hbs. f_equal. unfold end_idx, start_idx.
  rewrite slice_chunk by nia. do 2 f_equal. nia.
Qed.

Lemma all_batches_chunks (tb : Z) (aw : WalletFiles) (size : Z) :
  1 <= size ->
  batch_size tb (Z.of_nat (length (flatten aw))) = Ret size ->
  all_batches tb aw
  = map Ret (map (fun i => firstn (Z.to_nat size)
                                  (skipn (i * Z.to_nat size) (flatten aw)))
                 (seq 0 (Z.to_nat tb))).
Proof.
  intros Hsz Hbs. unfold all_batches.
  rewrite <- seq_shift, !map_map. apply map_ext. intros i.
  destruct (flatten aw) as [|w0 flat] eqn:Hflat.
  - unfold get_batch_wallets. rewrite Hflat. simpl.
    by rewrite skipn_nil, firstn_nil.
  - rewrite <- Hflat in *.
    rewrite (get_batch_wallets_chunk _ tb aw size); [|lia|lia|congruence|done].
    do 3 f_equal. lia.
Qed.

(** C2. For every wallet-file map and every [total_batches >= 1], the
    calls of [get_batch_wallets] for batch numbers [1..total_batches] all
    return; their slices, concatenated in batch order, are the flattened
    wallet list; the index ranges of two different batches do not
    overlap, and when no wallet occurs twice no wallet lies in two
    batches; and the slice is a function of the batch number, the batch
    count and the wallet files alone. *)
Theorem partition_complete_disjoint_deterministic
    (total_batches : Z) (all_wallets : WalletFiles) :
  1 <= total_batches ->
  exists parts : list (list Wallet),
    all_batches total_batches all_wallets = map Ret parts
    /\ concat parts = flatten all_wallets
    /\ (exists size,
          batch_size total_batches (Z.of_nat (length (flatten all_wallets))) = Ret size
          /\ forall i j, 1 <= i -> i < j ->
               end_idx i size (Z.of_nat (length (flatten all_wallets)))
               <= start_idx j size)
    /\ (NoDup (flatten all_wallets) ->
        forall i j p q w, i <> j -> parts !! i = Some p -> parts !! j = Some q ->
                          w ∈ p -> w ∉ q)
    /\ (forall bn bn' tb' aw',
          bn = bn' -> total_batches = tb' -> all_wallets = aw' ->
          get_batch_wallets bn total_batches all_wallets
          = get_batch_wallets bn' tb' aw').
Proof.
  intros Htb.
  destruct (batch_size_pos total_batches (Z.of_nat (length (flatten all_wallets))))
    as (size & Hbs & Hsz & Hcover & _); [lia..|].
  exists (map (fun i => firstn (Z.to_nat size)
                               (skipn (i * Z.to_nat size) (flatten all_wallets)))
              (seq 0 (Z.to_nat total_batches))).
  assert (Hcat : concat (map (fun i => firstn (Z.to_nat size)
                               (skipn (i * Z.to_nat size) (flatten all_wallets)))
                             (seq 0 (Z.to_nat total_batches)))
                 = flatten all_wallets).
  { apply concat_chunks; [lia|]. nia. }
  split; [by apply all_batches_chunks|].
  split; [exact Hcat|].
  split.
  { exists size. split; [done|]. intros i j Hi Hij. unfold end_idx, start_idx. nia. }
  split.
  { intros Hnd. apply NoDup_concat_disjoint. by rewrite Hcat. }
  intros bn bn' tb' aw' -> -> ->. reflexivity.
Qed.

(** C3. For a 1-based batch number and [total_batches >= 1]: on an empty
    wallet list [get_batch_wallets] returns the empty list; otherwise it
    takes [batch_size = ceil(total / total_batches)], [start =
    (batch_number - 1) * batch_size] and [end = min(start + batch_size,
    total)], returns the elements at positions [start..end), and returns
    the empty list when [start >= total].  With 7 wallets and 3 batches
    the batch sizes are 3, 3, 1 and batch 3 is exactly the 7th wallet. *)
Theorem get_batch_wallets_slice
    (batch_number total_batches : Z) (all_wallets : WalletFiles) :
  1 <= batch_number -> 1 <= total_batches ->
  let flat := flatten all_wallets in
  let total := Z.of_nat (length flat) in
  (total = 0 -> get_batch_wallets batch_number total_batches all_wallets = Ret [])
  /\ (0 < total ->
      exists size,
        (size - 1) * total_batches < total <= size * total_batches
        /\ let start := (batch_number - 1) * size in
           let stop := Z.min (start + size) total in
           get_batch_wallets batch_number total_batches all_wallets
           = Ret (firstn (Z.to_nat (stop - start)) (skipn (Z.to_nat start) flat))
           /\ (total <= start ->
               get_batch_wallets batch_number total_batches all_wallets = Ret []))
  /\ (total = 7 ->
      map (fun r => match r with
                    | Ret batch => Some (length batch)
                    | Raise _ => None
                    end) (all_batches 3 all_wallets)
      = [Some 3; Some 3; Some 1]%nat
      /\ exists w7, flat !! 6%nat = Some w7
                    /\ get_batch_wallets 3 3 all_wallets = Ret [w7]).
Proof.
  intros Hbn Htb flat total. subst total. split; [|split].
  - intros Hz. unfold get_batch_wallets. fold flat. by rewrite Hz.
  - intros Hpos.
    destruct (batch_size_pos total_batches (Z.of_nat (length flat)))
      as (size & Hbs & Hsz & Hcover & Hceil); [lia..|].
    exists size. split; [split; [by apply Hceil | lia]|].
    assert (Hne : flat <> []) by (intros E; rewrite E in Hpos; simpl in Hpos; lia).
    pose proof (get_batch_wallets_chunk batch_number total_batches all_wallets size
                  Hbn Hsz Hne Hbs) as Hchunk.
    fold flat in Hchunk.
    assert (Hstart : (Z.to_nat (batch_number - 1) * Z.to_nat size)%nat
                     = Z.to_nat ((batch_number - 1) * size)) by nia.
    rewrite Hstart in Hchunk. cbn zeta. split.
    + rewrite Hchunk. f_equal.
      destruct (Z.le_gt_cases ((batch_number - 1) * size + size)
                              (Z.of_nat (length flat))) as [Hfit|Hcut].
      * rewrite Z.min_l by lia. f_equal. lia.
      * rewrite Z.min_r by lia.
        destruct (Z.le_gt_cases ((batch_number - 1) * size)
                                (Z.of_nat (length flat))) as [Hin|Hout].
        -- rewrite !firstn_all2; [done| |]; rewrite length_skipn; lia.
        -- rewrite skipn_all2 by lia. by rewrite !firstn_nil.
    + intros Hout. rewrite Hchunk, skipn_all2 by lia. by rewrite firstn_nil.
  - intros H7. unfold all_batches, get_batch_wallets. fold flat.
    destruct flat as [|w1 [|w2 [|w3 [|w4 [|w5 [|w6 [|w7 [|w8 rest]]]]]]]];
      simpl in H7; try lia.
    split; [reflexivity|]. exists w7. split; reflexivity.
Qed.

Lemma partition_complete_disjoint_deterministic_witness :
  1 <= 3 /\
  exists parts : list (list Wallet),
    all_batches 3 seven_wallets = map Ret parts
    /\ concat parts = flatten seven_wallets
    /\ (exists size,
          batch_size 3 (Z.of_nat (length (flatten seven_wallets))) = Ret size
          /\ forall i j, 1 <= i -> i < j ->
               end_idx i size (Z.of_nat (length (flatten seven_wallets)))
               <= start_idx j size)
    /\ (NoDup (flatten seven_wallets) ->
        forall i j p q w, i <> j -> parts !! i = Some p -> parts !! j = Some q ->
                          w ∈ p -> w ∉ q)
    /\ (forall bn bn' tb' aw',
          bn = bn' -> 3 = tb' -> seven_wallets = aw' ->
          get_batch_wallets bn 3 seven_wallets = get_batch_wallets bn' tb' aw').
Proof.
  split; [lia|].
  apply (partition_complete_disjoint_deterministic 3 seven_wallets). lia.
Defined.

Lemma get_batch_wallets_slice_witness :
  1 <= 3 /\ 1 <= 3 /\
  get_batch_wallets 3 3 seven_wallets = Ret [wallet_n 7].
Proof.
  split; [lia|]. split; [lia|].
  destruct (get_batch_wallets_slice 3 3 seven_wallets) as (_ & _ & H7); [lia..|].
  destruct (H7 eq_refl) as (_ & w7 & Hw7 & Hbatch).
  rewrite Hbatch. vm_compute in Hw7. injection Hw7 as <-. reflexivity.
Defined.

End PartitionerFacts.

(** ** The wallet task runner *)

Module RunnerFacts.
Import Runner Aggregates Samples.

Ltac run_frame :=
  unfold process_wallet_operations, process_wallet_operations_frame, operations,
    call, update, asyncio_sleep, bind, try_except, modify, ret, raise, get in *;
  simpl in *.

Section WithProvider.
Context {W : Type}.
Variable helios_ops : Provider W.

Lemma returned_result (wallet : Wallet) (w : W) (r : WalletResult) :
  fst (process_wallet_operations helios_ops wallet w) = Ret r ->
  status r = completed /\ wallet_id r = w_id wallet /\ stake_recorded r.
Proof.
  unfold stake_recorded. run_frame.
  repeat (case_match; simpl in *; simplify_eq); intros; simplify_eq; simpl;
    repeat split; eauto 6.
Qed.

Lemma raised_result (wallet : Wallet) (w : W) (e : exn) :
  fst (process_wallet_operations helios_ops wallet w) = Raise e ->
  let r := result (snd (process_wallet_operations helios_ops wallet w)) in
  status r = error /\ error_msg r = Some (str_exn e).
Proof.
  run_frame.
  repeat (case_match; simpl in *; simplify_eq); intros; simplify_eq; simpl; eauto.
Qed.

(** Against a provider whose calls return, the runner asks for the
    wallet state, submits a stake of [balance * 0.8] exactly when the
    fetched balance is above 1.0, submits a compound exactly when the
    fetched rewards are above 0.1, asks for the state again and returns a
    completed result; the stake id and amount are recorded exactly when
    the provider's answer is a non-empty id, and an answer of [None]
    still ends in a completed result.  With balance 2.0 and rewards 0.05
    the stake is 1.6 and no compound is submitted. *)
Theorem runner_thresholds (wallet : Wallet) (w : W) (info : WalletInfo) :
  (forall a w', is_ret (fst (get_wallet_info helios_ops a w')) = true) ->
  (forall a w', is_ret (fst (execute_stake_operation helios_ops wallet a w')) = true) ->
  (forall w', is_ret (fst (execute_auto_compound helios_ops wallet w')) = true) ->
  fst (get_wallet_info helios_ops (w_address wallet) w) = Ret info ->
  let balance := wi_balance info in
  let rewards := default 0%float (wi_pending_rewards info) in
  let amount := (balance * 0.8)%float in
  let w1 := snd (get_wallet_info helios_ops (w_address wallet) w) in
  let answer := fst (execute_stake_operation helios_ops wallet amount w1) in
  let run := process_wallet_operations helios_ops wallet w in
  calls (snd run)
  = [CallInfo (w_address wallet)]
    ++ (if (1.0 <? balance)%float then [CallStake wallet amount; Sleep 2] else [])
    ++ (if (0.1 <? rewards)%float then [CallCompound wallet] else [])
    ++ [CallInfo (w_address wallet); Sleep 1]
  /\ ((exists a, CallStake wallet a ∈ calls (snd run)) <-> (1.0 <? balance)%float = true)
  /\ (forall wallet' a, CallStake wallet' a ∈ calls (snd run) ->
                        wallet' = wallet /\ a = amount)
  /\ ((exists wallet', CallCompound wallet' ∈ calls (snd run))
      <-> (0.1 <? rewards)%float = true)
  /\ (exists r, fst run = Ret r /\ status r = completed
                /\ (stake_tx r, stake_amount r)
                   = (if (1.0 <? balance)%float then
                        match answer with
                        | Ret tx => if truthy tx then (tx, amount) else (None, 0%float)
                        | Raise _ => (None, 0%float)
                        end
                      else (None, 0%float)))
  /\ (balance = 2.0%float -> rewards = 0.05%float ->
      calls (snd run)
      = [CallInfo (w_address wallet); CallStake wallet 1.6%float; Sleep 2;
         CallInfo (w_address wallet); Sleep 1]).
Proof.
  intros Hinfo Hstake Hcomp H0 balance rewards amount w1 answer run.
  assert (Hcalls_run :
    calls (snd run)
    = [CallInfo (w_address wallet)]
      ++ (if (1.0 <? balance)%float then [CallStake wallet amount; Sleep 2] else [])
      ++ (if (0.1 <? rewards)%float then [CallCompound wallet] else [])
      ++ [CallInfo (w_address wallet); Sleep 1]
    /\ exists r, fst run = Ret r /\ status r = completed
         /\ (stake_tx r, stake_amount r)
            = (if (1.0 <? balance)%float then
                 match answer with
                 | Ret tx => if truthy tx then (tx, amount) else (None, 0%float)
                 | Raise _ => (None, 0%float)
                 end
               else (None, 0%float))).
  { subst run answer w1 amount rewards balance. run_frame.
    destruct (get_wallet_info helios_ops (w_address wallet) w) as [[i|?] w1] eqn:E0;
      simpl in H0; [|discriminate]. injection H0 as ->. simpl.
    destruct (1.0 <? wi_balance info)%float eqn:Hb;
      destruct (0.1 <? default 0%float (wi_pending_rewards info))%float eqn:Hr;
      simpl;
      repeat first
        [ match goal with
          | |- context [execute_stake_operation ?p ?wl ?a ?w'] =>
              let R := fresh "R" in
              pose proof (Hstake a w') as R;
              destruct (execute_stake_operation p wl a w') as [[?|?] ?];
              simpl in R; [clear R|discriminate R]; simpl
          | |- context [execute_auto_compound ?p ?wl ?w'] =>
              let R := fresh "R" in
              pose proof (Hcomp w') as R;
              destruct (execute_auto_compound p wl w') as [[?|?] ?];
              simpl in R; [clear R|discriminate R]; simpl
          | |- context [get_wallet_info ?p ?a ?w'] =>
              let R := fresh "R" in
              pose proof (Hinfo a w') as R;
              destruct (get_wallet_info p a w') as [[?|?] ?];
              simpl in R; [clear R|discriminate R]; simpl
          | |- context [truthy ?tx] => destruct (truthy tx) eqn:?; simpl
          end ];
      eauto. }
  destruct Hcalls_run as [Hcalls Hrun].
  split; [exact Hcalls|].
  split.
  { rewrite Hcalls. split.
    - intros [a Ha]. destruct (1.0 <? balance)%float; [done|].
      destruct (0.1 <? rewards)%float; simpl in Ha; set_solver.
    - intros ->. exists amount. set_solver. }
  split.
  { intros wallet' a. rewrite Hcalls.
    destruct (1.0 <? balance)%float, (0.1 <? rewards)%float; simpl;
      rewrite ?elem_of_cons, elem_of_nil; naive_solver. }
  split.
  { rewrite Hcalls. split.
    - intros [wallet' Hc]. destruct (0.1 <? rewards)%float; [done|].
      destruct (1.0 <? balance)%float; simpl in Hc; set_solver.
    - intros ->. exists wallet. destruct (1.0 <? balance)%float; set_solver. }
  split; [exact Hrun|].
  intros Hb Hr. rewrite Hcalls. subst amount. rewrite Hb, Hr. reflexivity.
Qed.

(** When the fetched rewards are not above 0.1 (or the fetch raises), no
    compound is submitted and none is recorded. *)
Lemma no_compound_below_threshold (wallet : Wallet) (w : W) :
  (forall info, fst (get_wallet_info helios_ops (w_address wallet) w) = Ret info ->
                (0.1 <? default 0%float (wi_pending_rewards info))%float = false) ->
  let run := process_wallet_operations helios_ops wallet w in
  compound_tx (result (snd run)) = None
  /\ compound_amount (result (snd run)) = 0%float
  /\ (forall wallet', CallCompound wallet' ∉ calls (snd run))
  /\ (forall r, fst run = Ret r -> r = result (snd run)).
Proof.
  intros H. cbn zeta. run_frame.
  destruct (get_wallet_info helios_ops (w_address wallet) w) as [[info|e] w1];
    simpl in *.
  - rewrite (H info eq_refl).
    repeat (case_match; simpl in *; simplify_eq);
      (split; [done|]; split; [done|]; split; [|by intros ? [= <-]]);
      intros wallet' Hin;
      repeat (progress (cbn in Hin; rewrite ?elem_of_app, ?elem_of_cons, ?elem_of_nil in Hin));
      naive_solver.
  - split; [done|]. split; [done|]. split; [|done].
    intros wallet' Hin. rewrite ?elem_of_cons, ?elem_of_nil in Hin. naive_solver.
Qed.
End WithProvider.

Lemma runner_thresholds_witness :
  calls (snd (process_wallet_operations steady_provider (wallet_n 1) tt))
  = [CallInfo "0xaddr1"; CallStake (wallet_n 1) 1.6%float; Sleep 2;
     CallInfo "0xaddr1"; Sleep 1].
Proof.
  pose proof (runner_thresholds steady_provider (wallet_n 1) tt steady_info
                (fun _ _ => eq_refl) (fun _ _ => eq_refl) (fun _ => eq_refl)
                eq_refl) as H.
  cbn zeta in H. destruct H as (_ & _ & _ & _ & _ & H).
  exact (H eq_refl eq_refl).
Defined.

End RunnerFacts.

(** ** The batch coordinator *)

Module CoordinatorFacts.
Import Coordinator Aggregates FloatFacts.

Lemma aggregate_snoc bn os o :
  aggregate bn (os ++ [o]) = aggregate_one (aggregate bn os) o.
Proof. unfold aggregate. by rewrite fold_left_app. Qed.

Lemma returned_snoc os o :
  returned (os ++ [o])
  = returned os ++ match o with Ret r => [r] | Raise _ => [] end.
Proof. unfold returned. rewrite omap_app. by destruct o. Qed.

Lemma raised_snoc os o :
  raised (os ++ [o]) = (raised os + if is_ret o then 0 else 1)%nat.
Proof.
  unfold raised. rewrite filter_app, length_app. f_equal.
  destruct o; reflexivity.
Qed.

Lemma staked_snoc rs r :
  staked (rs ++ [r]) = staked rs ++ if truthy (stake_tx r) then [r] else [].
Proof.
  unfold staked. rewrite filter_app. f_equal.
  rewrite filter_cons, filter_nil. destruct (truthy (stake_tx r)); by case_decide.
Qed.

Lemma compounded_snoc rs r :
  compounded (rs ++ [r])
  = compounded rs ++ if truthy (compound_tx r) then [r] else [].
Proof.
  unfold compounded. rewrite filter_app. f_equal.
  rewrite filter_cons, filter_nil. destruct (truthy (compound_tx r)); by case_decide.
Qed.

Lemma float_sum_snoc xs x : float_sum (xs ++ [x]) = (float_sum xs + x)%float.
Proof. unfold float_sum. by rewrite fold_left_app. Qed.

(** Every field of the aggregate in closed form. *)
Lemma aggregate_fields bn os :
  let r := aggregate bn os in
  batch_number r = bn
  /\ processed r = Z.of_nat (length os)
  /\ errors r = Z.of_nat (raised os)
  /\ wallet_details r = returned os
  /\ successful_stakes r = Z.of_nat (length (staked (returned os)))
  /\ successful_compounds r = Z.of_nat (length (compounded (returned os)))
  /\ total_staked r = float_sum (map stake_amount (staked (returned os)))
  /\ total_compounded r
     = float_sum (map compound_amount (compounded (returned os)))
  /\ transactions r
     = map summary_of
           (filter (fun r => truthy (stake_tx r) || truthy (compound_tx r) = true)
                   (returned os))
  /\ (execution_time r, start_time r, end_time r) = (None, None, None).
Proof.
  induction os as [|o os IH] using rev_ind; [done|].
  cbn zeta in *.
  destruct IH as (Hbn & Hp & He & Hd & Hs & Hc & Hts & Htc & Htx & Ht).
  injection Ht as Ht1 Ht2 Ht3.
  rewrite aggregate_snoc, returned_snoc, raised_snoc, length_app.
  destruct o as [r|e]; simpl.
  - rewrite staked_snoc, compounded_snoc, filter_app, !map_app, !length_app,
      filter_cons, filter_nil.
    rewrite Hbn, Hp, He, Hd, Hs, Hc, Hts, Htc, Htx, Ht1, Ht2, Ht3.
    destruct (truthy (stake_tx r)), (truthy (compound_tx r)); simpl;
      rewrite ?float_sum_snoc, ?app_nil_r; try case_decide; try done;
      simpl; rewrite ?app_nil_r; repeat split; try lia; done.
  - rewrite !app_nil_r, Ht1, Ht2, Ht3. repeat split; try done; lia.
Qed.

Lemma batch_result_eta (r : BatchResult) :
  r = mkBatchResult (batch_number r) (processed r) (successful_stakes r)
        (successful_compounds r) (total_staked r) (total_compounded r) (errors r)
        (transactions r) (wallet_details r) (execution_time r) (start_time r)
        (end_time r).
Proof. by destruct r. Qed.

Lemma returned_skip l1 e l2 : returned (l1 ++ Raise e :: l2) = returned (l1 ++ l2).
Proof. unfold returned. by rewrite !omap_app. Qed.

Lemma raised_skip l1 e l2 : raised (l1 ++ Raise e :: l2) = S (raised (l1 ++ l2)).
Proof.
  unfold raised. rewrite !filter_app, filter_cons. case_decide; [|done].
  rewrite !length_app. simpl. lia.
Qed.

(** A task that raised changes the two counters it is counted in and
    nothing else, wherever it stands in the batch. *)
Lemma aggregate_skip bn l1 e l2 :
  let r := aggregate bn (l1 ++ l2) in
  aggregate bn (l1 ++ Raise e :: l2)
  = mkBatchResult (batch_number r) (processed r + 1) (successful_stakes r)
      (successful_compounds r) (total_staked r) (total_compounded r)
      (errors r + 1) (transactions r) (wallet_details r) (execution_time r)
      (start_time r) (end_time r).
Proof.
  cbn zeta.
  destruct (aggregate_fields bn (l1 ++ Raise e :: l2))
    as (Hbn & Hp & He & Hd & Hs & Hc & Hts & Htc & Htx & Ht).
  destruct (aggregate_fields bn (l1 ++ l2))
    as (Hbn' & Hp' & He' & Hd' & Hs' & Hc' & Hts' & Htc' & Htx' & Ht').
  rewrite returned_skip in *. rewrite raised_skip in He.
  injection Ht as Ht1 Ht2 Ht3. injection Ht' as Ht1' Ht2' Ht3'.
  rewrite (batch_result_eta (aggregate bn (l1 ++ Raise e :: l2))).
  rewrite Hbn, Hp, He, Hd, Hs, Hc, Hts, Htc, Htx, Ht1, Ht2, Ht3.
  rewrite Hbn', Hp', He', Hd', Hs', Hc', Hts', Htc', Htx', Ht1', Ht2', Ht3'.
  f_equal; rewrite ?length_app; simpl; lia.
Qed.

Lemma staked_non_null (rs : list WalletResult) :
  Forall stake_recorded rs ->
  staked rs = filter (fun r => is_Some (stake_tx r)) rs.
Proof.
  unfold staked. induction 1 as [|r rs Hr _ IH]; [done|].
  rewrite !filter_cons, IH.
  assert (Hiff : truthy (stake_tx r) = true <-> is_Some (stake_tx r)).
  { destruct Hr as [[Hn _]|[Ht _]].
    - rewrite Hn. split; [done|]. by intros [? ?].
    - rewrite Ht. split; [|done]. intros _. destruct (stake_tx r); [by eexists|done]. }
  repeat case_decide; try done; tauto.
Qed.

Lemma stake_recorded_nonneg (r : WalletResult) :
  stake_recorded r -> (0 <=? stake_amount r)%float = true.
Proof.
  intros [[_ ->]|(_ & b & Hb & ->)]; [done|]. by apply mul_08_nonneg.
Qed.

Lemma fold_add_nonneg (xs : list float) : forall acc,
  (0 <=? acc)%float = true ->
  Forall (fun x => (0 <=? x)%float = true) xs ->
  (0 <=? fold_left PrimFloat.add xs acc)%float = true.
Proof.
  induction xs as [|x xs IH]; intros acc Hacc Hxs; [done|].
  inversion Hxs; subst. simpl. apply IH; [|done]. by apply add_nonneg.
Qed.

Lemma returned_length os : (length (returned os) <= length os)%nat.
Proof.
  induction os as [|o os IH] using rev_ind; [done|].
  rewrite returned_snoc, !length_app. destruct o; simpl; lia.
Qed.

Lemma returned_made os :
  Forall runner_made os -> Forall stake_recorded (returned os).
Proof.
  unfold returned. induction 1 as [|[r|e] os Ho _ IH]; simpl; [done| |done].
  constructor; [apply Ho|done].
Qed.

Lemma total_staked_nonneg (rs : list WalletResult) :
  Forall stake_recorded rs ->
  (0 <=? float_sum (map stake_amount (staked rs)))%float = true.
Proof.
  intros Hrs. apply fold_add_nonneg; [done|].
  apply Forall_forall. intros x Hx. apply list_elem_of_In, in_map_iff in Hx.
  destruct Hx as (r & <- & Hr). apply stake_recorded_nonneg.
  apply list_elem_of_In in Hr. unfold staked in Hr.
  apply list_elem_of_filter in Hr as [_ Hr].
  by eapply Forall_forall in Hrs.
Qed.

Section WithProvider.
Context {W : Type}.
Variable helios_ops : Provider W.

Lemma gather_length view wallets :
  length (gather helios_ops view wallets) = length wallets.
Proof. unfold gather. apply length_imap. Qed.

(** C1. Whatever the tasks of a batch did, the aggregation yields a
    batch result: [processed] counts every dispatched wallet, [errors]
    counts the tasks that raised, [wallet_details] holds the returned
    results and no entry for a task that raised, and a task that raised
    leaves what the other tasks contribute as it is. *)
Theorem batch_survives_failures (bn : Z) (view : nat -> W) (wallets : list Wallet) :
  let outcomes := gather helios_ops view wallets in
  let r := process_wallet_batch helios_ops bn view wallets in
  processed r = Z.of_nat (length wallets)
  /\ errors r = Z.of_nat (raised outcomes)
  /\ wallet_details r = returned outcomes
  /\ processed r = errors r + Z.of_nat (length (wallet_details r))
  /\ forall (others1 others2 : list (pyresult WalletResult)) (e : exn),
       let without := aggregate bn (others1 ++ others2) in
       aggregate bn (others1 ++ Raise e :: others2)
       = mkBatchResult (batch_number without) (processed without + 1)
           (successful_stakes without) (successful_compounds without)
           (total_staked without) (total_compounded without)
           (errors without + 1) (transactions without) (wallet_details without)
           (execution_time without) (start_time without) (end_time without).
Proof.
  intros outcomes r. subst r. unfold process_wallet_batch. fold outcomes.
  destruct (aggregate_fields bn outcomes) as (_ & Hp & He & Hd & _).
  assert (Hlen : length outcomes = length wallets) by apply gather_length.
  assert (Hsplit : length outcomes = (raised outcomes + length (returned outcomes))%nat).
  { clear. induction outcomes as [|o os IH] using rev_ind; [done|].
    rewrite raised_snoc, returned_snoc, !length_app, IH.
    destruct o; simpl; lia. }
  rewrite Hp, He, Hd.
  split; [lia|]. split; [done|]. split; [done|]. split; [lia|].
  intros. apply aggregate_skip.
Qed.

Lemma gather_made view wallets : Forall runner_made (gather helios_ops view wallets).
Proof.
  apply Forall_forall. intros o Ho. unfold gather in Ho.
  apply elem_of_lookup_imap in Ho as (i & wallet & -> & _).
  destruct (fst _) as [r|e] eqn:E; [|done]. simpl.
  apply RunnerFacts.returned_result in E. tauto.
Qed.

(** Every entry of [wallet_details] has status [completed]: a call of
    [process_wallet_operations] that returns hands back a completed
    result, and one whose local result is marked [error] raises. *)
Theorem wallet_details_all_completed (bn : Z) (view : nat -> W) (wallets : list Wallet) :
  Forall (fun r => status r = completed)
         (wallet_details (process_wallet_batch helios_ops bn view wallets))
  /\ (forall wallet w r,
        fst (Runner.process_wallet_operations helios_ops wallet w) = Ret r ->
        status r = completed)
  /\ (forall wallet w e,
        fst (Runner.process_wallet_operations helios_ops wallet w) = Raise e ->
        status (Runner.result (snd (Runner.process_wallet_operations helios_ops wallet w)))
        = error).
Proof.
  split; [|split].
  - unfold process_wallet_batch.
    destruct (aggregate_fields bn (gather helios_ops view wallets))
      as (_ & _ & _ & -> & _).
    pose proof (gather_made view wallets) as Hmade.
    induction Hmade as [|[r|e] os Ho _ IH]; simpl; [done| |done].
    constructor; [apply Ho|done].
  - intros wallet w r E. by apply RunnerFacts.returned_result in E as (? & _).
  - intros wallet w e E. by apply RunnerFacts.raised_result in E as (? & _).
Qed.

(** [total_staked] is the left-to-right binary64 sum, in dispatch order,
    of [stake_amount] over the entries of [wallet_details] whose
    [stake_tx] is not [None]; it is never below zero;
    [successful_stakes <= processed]; and under a permutation of the
    outcomes the four counters keep their values, the summed amounts are
    the same up to order, and the total is again their left-to-right sum
    and not below zero. *)
Theorem staking_totals (bn : Z) (view : nat -> W) (wallets : list Wallet) :
  let outcomes := gather helios_ops view wallets in
  let r := process_wallet_batch helios_ops bn view wallets in
  total_staked r
  = float_sum (map stake_amount
                   (filter (fun x => is_Some (stake_tx x)) (wallet_details r)))
  /\ (0 <=? total_staked r)%float = true
  /\ (total_staked r <? 0)%float = false
  /\ successful_stakes r <= processed r
  /\ forall outcomes',
       outcomes ≡ₚ outcomes' ->
       let r' := aggregate bn outcomes' in
       processed r' = processed r
       /\ errors r' = errors r
       /\ successful_stakes r' = successful_stakes r
       /\ successful_compounds r' = successful_compounds r
       /\ wallet_details r' ≡ₚ wallet_details r
       /\ map stake_amount (filter (fun x => is_Some (stake_tx x)) (wallet_details r'))
          ≡ₚ map stake_amount (filter (fun x => is_Some (stake_tx x)) (wallet_details r))
       /\ total_staked r'
          = float_sum (map stake_amount
                           (filter (fun x => is_Some (stake_tx x)) (wallet_details r')))
       /\ (0 <=? total_staked r')%float = true.
Proof.
  intros outcomes r. subst r. unfold process_wallet_batch. fold outcomes.
  pose proof (gather_made view wallets) as Hmade. fold outcomes in Hmade.
  assert (Hgen : forall os, Forall runner_made os ->
    let r := aggregate bn os in
    total_staked r
    = float_sum (map stake_amount
                     (filter (fun x => is_Some (stake_tx x)) (wallet_details r)))
    /\ (0 <=? total_staked r)%float = true
    /\ successful_stakes r <= processed r).
  { intros os Hos. cbn zeta.
    destruct (aggregate_fields bn os) as (_ & Hp & _ & Hd & Hs & _ & Hts & _).
    pose proof (returned_made os Hos) as Hrec.
    rewrite Hts, Hd, Hs, Hp. rewrite <- (staked_non_null _ Hrec).
    split; [done|]. split; [by apply total_staked_nonneg|].
    assert (length (staked (returned os)) <= length os)%nat; [|lia].
    etrans; [apply length_filter|]. apply returned_length. }
  destruct (Hgen outcomes Hmade) as (Hsum & Hpos & Hle).
  split; [done|]. split; [done|]. split; [by apply leb_zero_not_ltb|].
  split; [done|].
  intros outcomes' Hperm. cbn zeta.
  assert (Hmade' : Forall runner_made outcomes').
  { eapply Permutation_Forall; [exact Hperm|exact Hmade]. }
  destruct (Hgen outcomes' Hmade') as (Hsum' & Hpos' & _).
  destruct (aggregate_fields bn outcomes) as (_ & Hp & He & Hd & Hs & Hc & _).
  destruct (aggregate_fields bn outcomes') as (_ & Hp' & He' & Hd' & Hs' & Hc' & _).
  assert (Hret : returned outcomes' ≡ₚ returned outcomes).
  { unfold returned. symmetry. by apply omap_Permutation. }
  assert (Hlen : length outcomes' = length outcomes).
  { symmetry. by apply Permutation_length. }
  assert (Hraised : raised outcomes' = raised outcomes).
  { unfold raised. apply Permutation_length. symmetry.
    by apply filter_Permutation. }
  assert (Hstaked : length (staked (returned outcomes'))
                    = length (staked (returned outcomes))).
  { unfold staked. apply Permutation_length. by apply filter_Permutation. }
  assert (Hcomp : length (compounded (returned outcomes'))
                  = length (compounded (returned outcomes))).
  { unfold compounded. apply Permutation_length. by apply filter_Permutation. }
  rewrite Hp, He, Hd, Hs, Hc, Hp', He', Hd', Hs', Hc'.
  rewrite Hlen, Hraised, Hstaked, Hcomp.
  split; [done|]. split; [done|]. split; [done|]. split; [done|].
  split; [exact Hret|]. split.
  { apply Permutation_map. by apply filter_Permutation. }
  split; [|exact Hpos'].
  rewrite Hsum'. by rewrite Hd'.
Qed.
End WithProvider.

End CoordinatorFacts.

(** ** The operation provider *)

Module ProviderFacts.
Import HeliosOperations.

Ltac run_chain :=
  unfold get_wallet_info, get_wallet_balance, execute_stake_operation,
    execute_auto_compound, get_pending_rewards, retry3, Tenacity.retry,
    Tenacity.attempts, get_wallet_balance_body, execute_stake_operation_body,
    sleep, answer, bind, try_except, modify, ret, raise, get in *;
  simpl in *.

(** The waits of the decorator lie between its [min] and its [max]. *)
Lemma wait_exponential_bounds (multiplier lo hi : Z) (attempt_number : nat) :
  0 <= lo <= hi ->
  lo <= Tenacity.wait_exponential multiplier lo hi attempt_number <= hi.
Proof. unfold Tenacity.wait_exponential. lia. Qed.

(** [get_wallet_balance] reads the balance at most three times, sleeps 4
    seconds between two reads, returns the first balance it obtains and
    raises [RetryError] around the third failure. *)
Theorem get_wallet_balance_retries (address : string) (c : Chain) :
  let n := balance_calls c in
  let out := get_wallet_balance address c in
  let after k zs :=
    snd out = mkChain (balance_reply c) (stake_reply c) (compound_reply c)
                      (n + k) (stake_calls c) (compound_calls c) (slept c ++ zs) in
  match balance_reply c address n,
        balance_reply c address (S n),
        balance_reply c address (S (S n)) with
  | Ret x, _, _ => fst out = Ret x /\ after 1%nat []
  | Raise _, Ret x, _ => fst out = Ret x /\ after 2%nat [4]
  | Raise _, Raise _, Ret x => fst out = Ret x /\ after 3%nat [4; 4]
  | Raise _, Raise _, Raise e => fst out = Raise (RetryError e) /\ after 3%nat [4; 4]
  end
  /\ forall attempt_number, 4 <= Tenacity.wait_exponential 1 4 10 attempt_number <= 10.
Proof.
  cbn zeta. split; [|intros; by apply wait_exponential_bounds].
  run_chain. unfold tick_balance. simpl.
  destruct (balance_reply c address (balance_calls c)) as [x|e0]; simpl.
  { split; [done|]. f_equal; [lia|by rewrite app_nil_r]. }
  destruct (balance_reply c address (S (balance_calls c))) as [x|e1]; simpl.
  { split; [done|]. f_equal. lia. }
  destruct (balance_reply c address (S (S (balance_calls c)))) as [x|e2]; simpl.
  { split; [done|]. f_equal; [lia|by rewrite <- app_assoc]. }
  split; [done|]. f_equal; [lia|by rewrite <- app_assoc].
Qed.

(** [execute_stake_operation] never raises, runs its body once and never
    sleeps; it returns a transaction id exactly when every call of the
    body answered, the gas price is at most 25 gwei and the receipt's
    status is 1, and the id is the hash of the sent transaction. *)
Theorem execute_stake_operation_once (wallet : Wallet) (amount : float) (c : Chain) :
  let rpc := stake_reply c wallet amount (stake_calls c) in
  let out := execute_stake_operation wallet amount c in
  snd out = tick_stake c
  /\ (exists answer, fst out = Ret answer)
  /\ forall tx_hash,
       fst out = Ret (Some tx_hash)
       <-> (is_ret (s_from_key rpc) = true /\ is_ret (s_to_wei rpc) = true
            /\ is_ret (s_nonce rpc) = true /\ is_ret (s_chain_id rpc) = true
            /\ is_ret (s_sign rpc) = true
            /\ (exists gas_price, s_gas_price rpc = Ret gas_price
                                  /\ gas_price <= 25 * 10 ^ 9)
            /\ s_send rpc = Ret tx_hash
            /\ s_receipt_status rpc = Ret 1).
Proof.
  cbn zeta. run_chain.
  destruct (stake_reply c wallet amount (stake_calls c))
    as [[a|?] [b|?] [n|?] [g|?] [i|?] [r|?] [h|?] [st|?]]; simpl;
    try (split; [done|]; split; [by eexists|]; intros tx; split;
         [done | intros (?&?&?&?&?&(?&?&?)&?&?); simplify_eq; done]).
  all: unfold max_gas_price;
    destruct (Z.ltb_spec (25 * 10 ^ 9) g); simpl;
    try (split; [done|]; split; [by eexists|]; intros tx; split;
         [done | intros (?&?&?&?&?&(?&?&?)&?&?); simplify_eq; lia]).
  all: destruct (Z.eqb_spec st 1); simpl;
    (split; [done|]; split; [by eexists|]; intros tx; split;
     [ intros ?; simplify_eq; repeat split; eauto
     | intros (?&?&?&?&?&(?&?&?)&?&?); simplify_eq; done ]).
Qed.

(** [execute_auto_compound] never submits anything: the rewards it reads
    are the constant 0.0, below its own threshold, so it returns [None]
    and leaves the chain untouched. *)
Lemma execute_auto_compound_none (wallet : Wallet) (c : Chain) :
  execute_auto_compound wallet c = (Ret None, c).
Proof. reflexivity. Qed.

(** [get_wallet_info] never raises: it reports the fetched balance, or a
    zero balance together with the text of the failure. *)
Theorem get_wallet_info_total (address : string) (c : Chain) :
  let fetched := get_wallet_balance address c in
  exists info,
    get_wallet_info address c = (Ret info, snd fetched)
    /\ wi_address info = address
    /\ wi_pending_rewards info = Some 0%float
    /\ match fst fetched with
       | Ret balance =>
           wi_balance info = balance /\ wi_error info = None
           /\ wi_total_value info = (balance + 0)%float
       | Raise e =>
           wi_balance info = 0%float /\ wi_error info = Some (str_exn e)
           /\ wi_total_value info = 0%float
       end.
Proof.
  cbn zeta. unfold get_wallet_info, bind, try_except, get_pending_rewards, ret.
  destruct (get_wallet_balance address c) as [[b|e] c']; simpl;
    eexists; repeat split.
Qed.

End ProviderFacts.

(** ** The runner and the coordinator over [HeliosOperations] *)

Module HeliosBatchFacts.
Import Runner Aggregates RunnerFacts ProviderFacts Samples
       Coordinator CoordinatorFacts.

Lemma helios_info_returns a c : is_ret (fst (get_wallet_info HeliosOperations.helios_ops a c)) = true.
Proof.
  destruct (get_wallet_info_total a c) as (info & E & _). simpl. by rewrite E.
Qed.

Lemma helios_stake_returns wallet a c :
  is_ret (fst (execute_stake_operation HeliosOperations.helios_ops wallet a c)) = true.
Proof.
  destruct (execute_stake_operation_once wallet a c) as (_ & [answer E] & _).
  simpl. by rewrite E.
Qed.

Lemma helios_compound_returns wallet c :
  is_ret (fst (execute_auto_compound HeliosOperations.helios_ops wallet c)) = true.
Proof. reflexivity. Qed.

(** With [HeliosOperations] as the provider a wallet task never raises
    and never compounds. *)
Lemma helios_runner_returns (wallet : Wallet) (c : HeliosOperations.Chain) :
  exists r, fst (process_wallet_operations HeliosOperations.helios_ops wallet c) = Ret r
            /\ status r = completed
            /\ compound_tx r = None /\ compound_amount r = 0%float.
Proof.
  destruct (get_wallet_info_total (w_address wallet) c) as (info & E & _ & Hrw & _).
  pose proof (runner_thresholds HeliosOperations.helios_ops wallet c info
                helios_info_returns (helios_stake_returns wallet)
                (helios_compound_returns wallet)) as H.
  simpl in H. rewrite E in H. specialize (H eq_refl).
  destruct H as (_ & _ & _ & _ & (r & Hr & Hst & _) & _).
  exists r. split; [done|]. split; [done|].
  destruct (no_compound_below_threshold HeliosOperations.helios_ops wallet c) as (Hc & Ha & _ & Hres).
  { simpl. rewrite E. simpl. intros ? [= <-]. by rewrite Hrw. }
  rewrite (Hres r Hr). done.
Qed.

(** With [HeliosOperations] as the provider no batch counts an error and
    no batch compounds: every dispatched wallet has an entry in
    [wallet_details]. *)
Theorem helios_batch_never_fails (bn : Z) (view : nat -> HeliosOperations.Chain) (wallets : list Wallet) :
  let r := process_wallet_batch HeliosOperations.helios_ops bn view wallets in
  errors r = 0
  /\ length (wallet_details r) = length wallets
  /\ processed r = Z.of_nat (length wallets)
  /\ successful_compounds r = 0
  /\ total_compounded r = 0%float
  /\ Forall (fun d => status d = completed /\ compound_tx d = None) (wallet_details r).
Proof.
  cbn zeta. unfold process_wallet_batch.
  set (os := gather HeliosOperations.helios_ops view wallets).
  assert (Hall : Forall (fun o => exists d, o = Ret d /\ status d = completed
                                     /\ compound_tx d = None) os).
  { apply Forall_forall. intros o Ho. unfold os, gather in Ho.
    apply elem_of_lookup_imap in Ho as (i & wallet & -> & _).
    destruct (helios_runner_returns wallet (view i)) as (d & E & ? & ? & _).
    by exists d. }
  destruct (aggregate_fields bn os) as (_ & Hp & He & Hd & _ & Hc & _ & Htc & _).
  assert (Hraised : raised os = 0%nat).
  { unfold raised. clear -Hall. induction Hall as [|o os (d & -> & _) _ IH]; [done|].
    rewrite filter_cons. simpl. try case_decide; done. }
  assert (Hret : length (returned os) = length os
                 /\ Forall (fun d => status d = completed /\ compound_tx d = None)
                           (returned os)).
  { unfold returned. clear -Hall.
    induction Hall as [|o os (d & -> & ? & ?) _ [IH1 IH2]]; [done|].
    split; [exact (f_equal S IH1)|]. by apply Forall_cons. }
  destruct Hret as [Hlen Hdet].
  assert (Hcomp : compounded (returned os) = []).
  { unfold compounded. clear -Hdet.
    induction Hdet as [|d ds [_ Hn] _ IH]; [done|].
    rewrite filter_cons, IH, Hn. simpl. try case_decide; done. }
  rewrite Hp, He, Hd, Hc, Htc, Hraised, Hcomp, Hlen.
  unfold os at 1 2. rewrite gather_length. done.
Qed.

(** A wallet whose first three balance reads all fail is not an error:
    [get_wallet_info] answers a zero balance, so the task submits
    nothing, returns a completed result with no error text, and the batch
    counts it as processed, not as failed. *)
Theorem exhausted_fetch_is_not_an_error (wallet : Wallet) (c : HeliosOperations.Chain) :
  (forall k, (k < 3)%nat ->
     is_ret (HeliosOperations.balance_reply c (w_address wallet)
               (HeliosOperations.balance_calls c + k)) = false) ->
  exists r fr,
    process_wallet_operations HeliosOperations.helios_ops wallet c = (Ret r, fr)
    /\ status r = completed /\ error_msg r = None
    /\ initial_balance r = 0%float
    /\ stake_tx r = None /\ stake_amount r = 0%float
    /\ compound_tx r = None
    /\ calls fr = [CallInfo (w_address wallet); CallInfo (w_address wallet); Sleep 1]
    /\ forall bn view,
         view 0%nat = c ->
         let b := process_wallet_batch HeliosOperations.helios_ops bn view [wallet] in
         errors b = 0 /\ processed b = 1 /\ wallet_details b = [r].
Proof.
  intros Hdead.
  pose proof (get_wallet_balance_retries (w_address wallet) c) as Hretry.
  cbn zeta in Hretry.
  pose proof (Hdead 0%nat ltac:(lia)) as H0.
  pose proof (Hdead 1%nat ltac:(lia)) as H1.
  pose proof (Hdead 2%nat ltac:(lia)) as H2.
  rewrite Nat.add_0_r in H0.
  replace (HeliosOperations.balance_calls c + 1)%nat
    with (S (HeliosOperations.balance_calls c)) in H1 by lia.
  replace (HeliosOperations.balance_calls c + 2)%nat
    with (S (S (HeliosOperations.balance_calls c))) in H2 by lia.
  destruct (HeliosOperations.balance_reply c _ (HeliosOperations.balance_calls c));
    [done|].
  destruct (HeliosOperations.balance_reply c _ (S (HeliosOperations.balance_calls c)));
    [done|].
  destruct (HeliosOperations.balance_reply c _ (S (S (HeliosOperations.balance_calls c))));
    [done|].
  destruct Hretry as [[Hraise _] _].
  destruct (get_wallet_info_total (w_address wallet) c) as (info & E1 & _ & Hrw & Hinfo).
  rewrite Hraise in Hinfo. destruct Hinfo as (Hbal & _ & _).
  set (c1 := snd (HeliosOperations.get_wallet_balance (w_address wallet) c)) in *.
  destruct (get_wallet_info_total (w_address wallet) c1) as (info2 & E2 & _).
  set (c2 := snd (HeliosOperations.get_wallet_balance (w_address wallet) c1)) in *.
  assert (Hrun : exists r,
    process_wallet_operations HeliosOperations.helios_ops wallet c
    = (Ret r, mkFrame c2 r [CallInfo (w_address wallet); CallInfo (w_address wallet);
                           Sleep 1])
    /\ status r = completed /\ error_msg r = None /\ initial_balance r = 0%float
    /\ stake_tx r = None /\ stake_amount r = 0%float /\ compound_tx r = None).
  { run_frame. rewrite E1. simpl. rewrite Hbal, Hrw. simpl. rewrite E2. simpl.
    eexists. split; [reflexivity|]. done. }
  destruct Hrun as (r & Hrun & Hst & Herr & Hib & Htx & Hamt & Hctx).
  exists r, (mkFrame c2 r [CallInfo (w_address wallet); CallInfo (w_address wallet);
                          Sleep 1]).
  repeat (split; [done|]).
  intros bn view Hview. cbn zeta.
  unfold process_wallet_batch, gather. simpl. rewrite Hview, Hrun. done.
Qed.

Lemma exhausted_fetch_is_not_an_error_witness :
  exists r fr,
    process_wallet_operations HeliosOperations.helios_ops (wallet_n 1) dead_chain
    = (Ret r, fr)
    /\ status r = completed /\ error_msg r = None
    /\ initial_balance r = 0%float
    /\ stake_tx r = None /\ stake_amount r = 0%float
    /\ compound_tx r = None
    /\ calls fr = [CallInfo (w_address (wallet_n 1)); CallInfo (w_address (wallet_n 1));
                   Sleep 1]
    /\ forall bn view,
         view 0%nat = dead_chain ->
         let b := process_wallet_batch HeliosOperations.helios_ops bn view [wallet_n 1] in
         errors b = 0 /\ processed b = 1 /\ wallet_details b = [r].
Proof.
  apply (exhausted_fetch_is_not_an_error (wallet_n 1) dead_chain).
  intros k _. reflexivity.
Defined.

End HeliosBatchFacts.

(** ** The report assembler *)

Module ReportFacts.
Import Report Samples.

Lemma list_ascii_app (a b : string) :
  String.list_ascii_of_string (a +:+ b) = String.list_ascii_of_string a ++ String.list_ascii_of_string b.
Proof. induction a as [|c a IH]; [done|]. simpl. by rewrite IH. Qed.

Lemma list_ascii_inj (a b : string) :
  String.list_ascii_of_string a = String.list_ascii_of_string b -> a = b.
Proof.
  intros H. rewrite <- (String.string_of_list_ascii_of_string a),
    <- (String.string_of_list_ascii_of_string b). by rewrite H.
Qed.

Lemma string_app_inv_tail (a b s : string) : a +:+ s = b +:+ s -> a = b.
Proof.
  intros H. apply list_ascii_inj.
  apply (f_equal String.list_ascii_of_string) in H. rewrite !list_ascii_app in H.
  by apply app_inv_tail in H.
Qed.

Lemma string_length_app (a b : string) :
  String.length (a +:+ b) = (String.length a + String.length b)%nat.
Proof. induction a as [|c a IH]; [done|]. simpl. by rewrite IH. Qed.

Lemma zfill_length (width n : nat) : (width <= String.length (Datetime.zfill width n))%nat.
Proof.
  unfold Datetime.zfill. rewrite string_length_app.
  assert (Hz : forall k, String.length (Datetime.zeros k) = k).
  { induction k as [|k IH]; [done|].
    change (Datetime.zeros (S k)) with ("0" +:+ Datetime.zeros k).
    by rewrite string_length_app, IH. }
  rewrite Hz. lia.
Qed.

(** A stamp has at least fifteen characters, so it is never the word
    that names the latest report. *)
Lemma stamp_not_latest (t : datetime) : Datetime.strftime_stamp t <> "latest".
Proof.
  intros H. apply (f_equal String.length) in H. unfold Datetime.strftime_stamp in H.
  rewrite !string_length_app in H. simpl in H.
  pose proof (zfill_length 4 (year t)). pose proof (zfill_length 2 (month t)).
  pose proof (zfill_length 2 (day t)). pose proof (zfill_length 2 (hour t)).
  pose proof (zfill_length 2 (minute t)). pose proof (zfill_length 2 (second t)).
  lia.
Qed.


Lemma report_file_latest (bn : Z) (s : string) :
  report_file bn s = latest_file bn -> s = "latest".
Proof.
  unfold report_file, latest_file. intros H.
  apply (inj (String.app _)) in H. apply (inj (String.app _)) in H.
  change "_latest.json" with ("_" +:+ "latest" +:+ ".json") in H.
  apply (inj (String.app _)) in H. by apply string_app_inv_tail in H.
Qed.

Ltac run_proc :=
  unfold generate_batch_report, Os.now, Os.write_file, Os.log, Os.print,
    bind, try_except, modify, ret, raise, get in *;
  simpl in *.

(** [generate_batch_report] writes the same document to the timestamped
    file and to the latest file, which are two different paths; when the
    timestamped file cannot be opened nothing is written, when only the
    latest file cannot be opened the timestamped one has been written and
    the latest one keeps its old content; both failures raise; standard
    output is never touched. *)
Theorem generate_batch_report_writes (bn : Z) (results : BatchResult) (p : Proc) :
  let stamp := Datetime.strftime_stamp (clock p (ticks p)) in
  let iso := Datetime.isoformat (clock p (S (ticks p))) in
  let hist := report_file bn stamp in
  let latest := latest_file bn in
  let data := Json (report_data bn iso results) in
  let out := generate_batch_report bn results p in
  hist <> latest
  /\ stdout (snd out) = stdout p
  /\ (writable p hist = true -> writable p latest = true ->
      fst out = Ret tt
      /\ files (snd out) = <[latest := data]> (<[hist := data]> (files p))
      /\ files (snd out) !! hist = Some data
      /\ files (snd out) !! latest = Some data)
  /\ (writable p hist = false ->
      (exists msg, fst out = Raise (OSError msg)) /\ files (snd out) = files p)
  /\ (writable p hist = true -> writable p latest = false ->
      (exists msg, fst out = Raise (OSError msg))
      /\ files (snd out) = <[hist := data]> (files p)
      /\ files (snd out) !! latest = files p !! latest).
Proof.
  cbn zeta.
  assert (Hne : report_file bn (Datetime.strftime_stamp (clock p (ticks p)))
                <> latest_file bn).
  { intros H%report_file_latest. by apply stamp_not_latest in H. }
  split; [done|]. run_proc.
  destruct (writable p (report_file bn _)) eqn:Hh; simpl.
  - destruct (writable p (latest_file bn)) eqn:Hl; simpl.
    + split; [done|]. split; [|split; [done|by intros _ ?]].
      intros _ _. split; [done|]. split; [done|].
      split; [|by rewrite lookup_insert_eq].
      by rewrite lookup_insert_ne, lookup_insert_eq.
    + split; [done|]. split; [done|]. split; [done|].
      intros _ _. split; [by eexists|]. split; [done|].
      by rewrite lookup_insert_ne.
  - split; [done|]. split; [done|]. split; [|done].
    intros _. split; [by eexists|done].
Qed.



End ReportFacts.

(** ** [print_batch_summary] and [run_batch] *)

Module RunBatchFacts.
Import Report ReportFacts Samples ProcSpec.

Lemma bind_print {A} (line : list Item) (k : unit -> M Proc A) (p : Proc) :
  bind (Os.print line) k p = k tt (printed p [line]).
Proof. reflexivity. Qed.

Lemma print_run (line : list Item) (p : Proc) :
  Os.print line p = (Ret tt, printed p [line]).
Proof. reflexivity. Qed.

Lemma bind_log {A} lvl (line : list Item) (k : unit -> M Proc A) (p : Proc) :
  bind (Os.log lvl line) k p = k tt (logged p [(lvl, line)]).
Proof. reflexivity. Qed.

Lemma bind_now {A} (k : datetime -> M Proc A) (p : Proc) :
  bind Os.now k p = k (clock p (ticks p)) (ticked p 1).
Proof. reflexivity. Qed.

Lemma bind_run {St A B} (c : M St A) (k : A -> M St B) (s s' : St) (a : A) :
  c s = (Ret a, s') -> bind c k s = k a s'.
Proof. unfold bind. by intros ->. Qed.

Lemma bind_raise {St A B} (c : M St A) (k : A -> M St B) (s s' : St) (e : exn) :
  c s = (Raise e, s') -> bind c k s = (Raise e, s').
Proof. unfold bind. by intros ->. Qed.

Lemma bind_bind {St A B C} (c : M St A) (k1 : A -> M St B) (k2 : B -> M St C) s :
  bind (bind c k1) k2 s = bind c (fun a => bind (k1 a) k2) s.
Proof. unfold bind. by destruct (c s) as [[a|e] s']. Qed.

Lemma printed_printed p l1 l2 : printed (printed p l1) l2 = printed p (l1 ++ l2).
Proof. unfold printed. simpl. by rewrite <- app_assoc. Qed.

Lemma for_each_print {A} (line : A -> list Item) (xs : list A) : forall p,
  Os.for_each xs (fun x => Os.print (line x)) p = (Ret tt, printed p (map line xs)).
Proof.
  induction xs as [|x xs IH]; intros p.
  - unfold printed. simpl. unfold ret. rewrite app_nil_r. by destruct p.
  - cbn [Os.for_each map]. rewrite bind_print. cbv beta. rewrite IH.
    by rewrite printed_printed.
Qed.

(** [l[-5:]] is the list without its first [len(l) - 5] elements. *)
Lemma slice_last_five {A} (l : list A) :
  slice l (-5) (Z.of_nat (length l)) = skipn (length l - 5) l.
Proof.
  unfold slice, slice_bound. simpl.
  destruct (Z.ltb_spec (Z.of_nat (length l)) 0); [lia|].
  rewrite Z.min_id.
  replace (Z.to_nat (Z.max 0 (-5 + Z.of_nat (length l)))) with (length l - 5)%nat by lia.
  apply firstn_all2. rewrite length_skipn. lia.
Qed.

(** [print_batch_summary] never raises and touches nothing but standard
    output: it prints ten lines, then, when there are transactions, a
    title and one line for each of the last five transactions at most,
    in their order, then a closing line. *)
Theorem print_batch_summary_lines (results : BatchResult) (p : Proc) :
  let txs := transactions results in
  let shown := skipn (length txs - 5) txs in
  let line tx := [Str "  "; Str (tx_wallet_id tx); Str ": Stake=";
                  Fixed4 (tx_stake_amount tx); Str " HLS"] in
  exists head title foot,
    length head = 10%nat
    /\ print_batch_summary results p
       = (Ret tt,
          printed p (head
                     ++ match txs with
                        | [] => []
                        | _ :: _ => title :: map line shown
                        end
                     ++ [foot]))
    /\ length shown = Nat.min 5 (length txs).
Proof.
  cbn zeta. unfold print_batch_summary.
  repeat (rewrite bind_print; cbv beta).
  rewrite !printed_printed.
  do 3 eexists. split; [|split; [|rewrite length_skipn; lia]].
  2:{ destruct (transactions results) as [|tx txs] eqn:E.
      - rewrite (bind_run (ret tt) _ _ _ tt eq_refl).
        rewrite print_run, printed_printed. reflexivity.
      - rewrite bind_bind, bind_print. cbv beta.
        rewrite (bind_run _ _ _ _ tt (for_each_print _ _ _)).
        rewrite print_run, slice_last_five, !printed_printed.
        rewrite <- !app_assoc. reflexivity. }
  reflexivity.
Qed.

Lemma bind_answer {St A B} (a : A) (k : A -> M St B) (s : St) :
  bind (HeliosOperations.answer (Ret a)) k s = k a s.
Proof. reflexivity. Qed.

Lemma pair_eta {A B} (x : A * B) : x = (fst x, snd x).
Proof. by destruct x. Qed.

Section WithProvider.
Context {W : Type}.
Variable helios_ops : Provider W.
Variable str_elapsed : datetime -> datetime -> string.

(** A run that has wallets to process reads the clock twice, then writes
    the report and prints the summary, in that order: when a report file
    cannot be written [run_batch] logs the failure and raises it, and the
    summary is not printed; when both can be written [run_batch] returns,
    the latest file holds the report of this batch and the summary has
    been printed. *)
Theorem run_batch_report_then_summary
    (bn tb : Z) (aw : WalletFiles) (view : nat -> W) (p : Proc)
    (wallet : Wallet) (wallets : list Wallet) :
  aw <> [] ->
  Partitioner.get_batch_wallets bn tb aw = Ret (wallet :: wallets) ->
  let hist := report_file bn (Datetime.strftime_stamp (clock p (S (S (ticks p))))) in
  let latest := latest_file bn in
  let results :=
    set_times (str_elapsed (clock p (ticks p)) (clock p (S (ticks p))))
              (Datetime.isoformat (clock p (ticks p)))
              (Datetime.isoformat (clock p (S (ticks p))))
              (Coordinator.process_wallet_batch helios_ops bn view (wallet :: wallets)) in
  let out := run_batch helios_ops str_elapsed bn tb aw view p in
  (writable p hist = false \/ writable p latest = false ->
     (exists msg, fst out = Raise (OSError msg))
     /\ stdout (snd out) = stdout p
     /\ files (snd out) !! latest = files p !! latest
     /\ exists line, last (logs (snd out)) = Some (ERROR, line))
  /\ (writable p hist = true -> writable p latest = true ->
      fst out = Ret tt
      /\ files (snd out) !! latest
         = Some (Json (report_data bn (Datetime.isoformat
                                         (clock p (S (S (S (ticks p)))))) results))
      /\ exists lines, stdout (snd out) = stdout p ++ lines
                       /\ (11 <= length lines)%nat).
Proof.
  intros Haw Hbatch. cbn zeta.
  unfold run_batch, run_batch_body, try_except.
  destruct aw as [|f fs]; [done|].
  rewrite bind_log. cbv beta. rewrite Hbatch, bind_answer. cbv beta iota.
  rewrite bind_log. cbv beta. rewrite !bind_now. cbv beta zeta.
  set (p3 := ticked (ticked (logged (logged p _) _) 1) 1).
  set (results := set_times _ _ _ _).
  pose proof (generate_batch_report_writes bn results p3) as Hgen.
  cbn zeta in Hgen.
  change (ticks p3) with (S (S (ticks p))) in Hgen.
  change (clock p3) with (clock p) in Hgen.
  change (writable p3) with (writable p) in Hgen.
  change (files p3) with (files p) in Hgen.
  change (stdout p3) with (stdout p) in Hgen.
  destruct Hgen as (Hne & Hout & Hok & Hfail1 & Hfail2).
  split.
  - intros Hw.
    assert (Hraise : (exists msg, fst (generate_batch_report bn results p3)
                                  = Raise (OSError msg))
                     /\ files (snd (generate_batch_report bn results p3))
                          !! latest_file bn = files p !! latest_file bn).
    { destruct (writable p (report_file bn _)) eqn:Hh.
      - destruct Hw as [?|Hl]; [done|].
        destruct (Hfail2 eq_refl Hl) as (Hm & _ & Hlk). by split.
      - destruct (Hfail1 eq_refl) as (Hm & Hf). split; [done|]. by rewrite Hf. }
    destruct Hraise as ([msg Hmsg] & Hlk).
    rewrite (bind_raise _ _ _ (snd (generate_batch_report bn results p3)) (OSError msg))
      by (rewrite <- Hmsg; apply pair_eta).
    rewrite bind_log. cbv beta. unfold raise. cbn [fst snd].
    split; [by eexists|]. split; [exact Hout|]. split; [exact Hlk|].
    eexists. unfold logged. cbn [logs]. apply last_snoc.
  - intros Hh Hl. destruct (Hok Hh Hl) as (Hret & _ & _ & Hlk).
    rewrite (bind_run _ _ _ (snd (generate_batch_report bn results p3)) tt)
      by (rewrite <- Hret; apply pair_eta).
    destruct (print_batch_summary_lines results
                (snd (generate_batch_report bn results p3)))
      as (head & title & foot & Hhead & Hprint & _).
    rewrite (bind_run _ _ _ _ tt Hprint).
    unfold Os.log, modify. cbn [fst snd files stdout printed].
    split; [done|]. split; [exact Hlk|].
    eexists. split; [by rewrite Hout|].
    rewrite !length_app, Hhead. simpl. lia.
Qed.
End WithProvider.

Lemma run_batch_report_then_summary_witness :
  fst (run_batch steady_provider (fun _ _ => "0:00:01") 1 3 seven_wallets
                 (fun _ => tt) (open_proc (fun n => noon n 0)))
  = Ret tt.
Proof.
  destruct (run_batch_report_then_summary steady_provider (fun _ _ => "0:00:01")
              1 3 seven_wallets (fun _ => tt) (open_proc (fun n => noon n 0))
              (wallet_n 1) [wallet_n 2; wallet_n 3]
              (fun E => eq_ind [] (fun l => match l with [] => True | _ :: _ => False end)
                               I seven_wallets (eq_sym E))
              eq_refl) as [_ H].
  exact (proj1 (H eq_refl eq_refl)).
Defined.

End RunBatchFacts.

(** ** The sample files and the runs that process nothing *)

Module SampleFilesFacts.
Import WalletFileManager ProcSpec SampleSpec RunBatchFacts.





Section WithProvider.
Context {W : Type}.
Variable helios_ops : Provider W.
Variable str_elapsed : datetime -> datetime -> string.

End WithProvider.

End SampleFilesFacts.

(** ** Edge cases of the partitioner *)

Module PartitionerEdges.
Import Partitioner PartitionerFacts.

Lemma firstn_one_skipn {A} (l : list A) (k : nat) :
  firstn 1 (skipn k l) = match l !! k with Some x => [x] | None => [] end.
Proof.
  revert k. induction l as [|x l IH]; intros [|k]; try done. simpl. apply IH.
Qed.

(** Outside the batches that hold wallets.  On an empty wallet list every
    call returns the empty list, whatever the batch count; a zero batch
    count raises [ZeroDivisionError] as soon as there is a wallet; batch
    number 0 and every batch number above the batch count get the empty
    list; with at least as many batches as wallets batch [k] holds the
    [k]-th wallet alone; and no batch is longer than the batch size or
    holds a wallet that is not in the files. *)
Theorem get_batch_wallets_edges (bn tb : Z) (aw : WalletFiles) :
  let flat := flatten aw in
  (flat = [] -> get_batch_wallets bn tb aw = Ret [])
  /\ (flat <> [] -> tb = 0 -> get_batch_wallets bn tb aw = Raise ZeroDivisionError)
  /\ (1 <= tb -> bn = 0 \/ tb < bn -> get_batch_wallets bn tb aw = Ret [])
  /\ (1 <= tb -> Z.of_nat (length flat) <= tb -> 1 <= bn ->
      get_batch_wallets bn tb aw
      = Ret match flat !! Z.to_nat (bn - 1) with Some w => [w] | None => [] end)
  /\ (1 <= tb -> 1 <= bn ->
      exists batch size,
        get_batch_wallets bn tb aw = Ret batch
        /\ batch_size tb (Z.of_nat (length flat)) = Ret size
        /\ Z.of_nat (length batch) <= size
        /\ forall w, w ∈ batch -> w ∈ flat).
Proof.
  cbn zeta.
  assert (Hempty : flatten aw = [] -> get_batch_wallets bn tb aw = Ret []).
  { intros E. unfold get_batch_wallets. by rewrite E. }
  assert (Hnz : flatten aw <> [] -> (Z.of_nat (length (flatten aw)) =? 0) = false).
  { intros Hne. apply Z.eqb_neq. destruct (flatten aw); [done|]. simpl. lia. }
  split; [exact Hempty|]. split.
  { intros Hne ->. unfold get_batch_wallets, batch_size, floordiv.
    by rewrite (Hnz Hne). }
  assert (Hchunk : 1 <= tb -> 1 <= bn -> flatten aw <> [] ->
    exists size, batch_size tb (Z.of_nat (length (flatten aw))) = Ret size
      /\ 1 <= size /\ Z.of_nat (length (flatten aw)) <= tb * size
      /\ (size - 1) * tb < Z.of_nat (length (flatten aw))
      /\ get_batch_wallets bn tb aw
         = Ret (firstn (Z.to_nat size)
                       (skipn (Z.to_nat (bn - 1) * Z.to_nat size) (flatten aw)))).
  { intros Htb Hbn Hne.
    destruct (batch_size_pos tb (Z.of_nat (length (flatten aw))))
      as (size & Hbs & Hsz & Hcover & Hceil); [lia..|].
    exists size. repeat split; try done.
    - apply Hceil. destruct (flatten aw); [done|]. simpl. lia.
    - by apply get_batch_wallets_chunk. }
  split.
  { intros Htb Hbn. destruct (decide (flatten aw = [])) as [E|Hne]; [by apply Hempty|].
    destruct Hbn as [->|Hbn].
    - unfold get_batch_wallets. rewrite (Hnz Hne).
      destruct (batch_size_pos tb (Z.of_nat (length (flatten aw))))
        as (size & Hbs & Hsz & _); [lia..|].
      rewrite Hbs. f_equal. unfold slice, slice_bound, end_idx, start_idx.
      destruct (Z.ltb_spec ((0 - 1) * size) 0); [|lia].
      destruct (Z.ltb_spec (Z.min ((0 - 1) * size + size)
                                  (Z.of_nat (length (flatten aw)))) 0); [lia|].
      replace (Z.to_nat _) with 0%nat by lia. done.
    - destruct (Hchunk Htb ltac:(lia) Hne) as (size & _ & Hsz & Hcover & _ & ->).
      rewrite skipn_all2 by nia. by rewrite firstn_nil. }
  split.
  { intros Htb Hn Hbn. destruct (decide (flatten aw = [])) as [E|Hne].
    - rewrite Hempty by done. by rewrite E, lookup_nil.
    - destruct (Hchunk Htb Hbn Hne) as (size & _ & Hsz & _ & Hceil & ->).
      assert (size = 1) by nia. subst size.
      change (Z.to_nat 1) with 1%nat. rewrite Nat.mul_1_r.
      by rewrite firstn_one_skipn. }
  intros Htb Hbn. destruct (decide (flatten aw = [])) as [E|Hne].
  - destruct (batch_size_pos tb (Z.of_nat (length (flatten aw))))
      as (size & Hbs & Hsz & _); [lia..|].
    exists [], size. rewrite Hempty by done. simpl.
    split; [done|]. split; [done|]. split; [lia|]. intros w Hw. by apply elem_of_nil in Hw.
  - destruct (Hchunk Htb Hbn Hne) as (size & Hbs & Hsz & _ & _ & ->).
    eexists _, size. split; [done|]. split; [done|]. split.
    + rewrite length_firstn. lia.
    + intros w Hw. by apply subseteq_take, subseteq_drop in Hw.
Qed.

End PartitionerEdges.

(** ** Splitting the wallet list *)

Module SplitFacts.
Import Partitioner PartitionerFacts WalletLoading.

Lemma slice_window {A} (l : list A) (start size : Z) :
  0 <= start -> 0 < size ->
  slice l start (start + size) = firstn (Z.to_nat size) (skipn (Z.to_nat start) l).
Proof.
  intros Hs Hb. rewrite <- slice_chunk by done.
  unfold slice, slice_bound.
  destruct (Z.ltb_spec (start + size) 0); [lia|].
  destruct (Z.ltb_spec (Z.min (start + size) (Z.of_nat (length l))) 0); [lia|].
  do 2 f_equal. lia.
Qed.

(** The batches of [split_wallets_into_batches] for a positive size, as
    chunks of the flattened list. *)
Lemma split_chunks (aw : WalletFiles) (bs : Z) :
  1 <= bs ->
  let n := Z.of_nat (length (flatten aw)) in
  split_wallets_into_batches aw bs
  = Ret (map (fun k => firstn (Z.to_nat bs) (skipn (k * Z.to_nat bs) (flatten aw)))
             (seq 0 (Z.to_nat ((n + bs - 1) / bs)))).
Proof.
  intros Hbs. cbn zeta. unfold split_wallets_into_batches, range0.
  destruct (Z.eqb_spec bs 0); [lia|].
  destruct (Z.ltb_spec bs 0); [lia|]. simpl.
  destruct (Z.leb_spec (Z.of_nat (length (flatten aw))) 0) as [Hz|Hpos].
  - assert (E : (Z.of_nat (length (flatten aw)) + bs - 1) / bs = 0).
    { apply Z.div_small. lia. }
    by rewrite E.
  - f_equal. rewrite map_map. apply map_ext. intros k.
    rewrite slice_window by lia. do 2 f_equal. lia.
Qed.

(** [split_wallets_into_batches]: a zero batch size raises, even with no
    wallet; a negative one returns no batch at all, whatever the wallets;
    a positive one cuts the flattened wallet list into
    [ceil(n / batch_size)] consecutive non-empty batches that concatenate
    to it, all of them of [batch_size] wallets except possibly the last;
    and when the size is the one [get_batch_wallets] computes for
    [total_batches], batch [k] here is batch number [k + 1] there. *)
Theorem split_wallets_into_batches_chunks (aw : WalletFiles) (bs : Z) :
  let flat := flatten aw in
  let n := Z.of_nat (length flat) in
  (bs = 0 -> exists e, split_wallets_into_batches aw bs = Raise e)
  /\ (bs < 0 -> split_wallets_into_batches aw bs = Ret [])
  /\ (1 <= bs ->
      exists batches,
        split_wallets_into_batches aw bs = Ret batches
        /\ concat batches = flat
        /\ Z.of_nat (length batches) = (n + bs - 1) / bs
        /\ (forall k b, batches !! k = Some b ->
               b <> [] /\ Z.of_nat (length b) <= bs
               /\ (S k < length batches -> Z.of_nat (length b) = bs)%nat)
        /\ (forall tb k b, 1 <= tb -> batch_size tb n = Ret bs ->
               batches !! k = Some b ->
               get_batch_wallets (Z.of_nat k + 1) tb aw = Ret b)).
Proof.
  cbn zeta. split; [|split].
  - intros ->. unfold split_wallets_into_batches, range0. simpl. by eexists.
  - intros Hneg. unfold split_wallets_into_batches, range0.
    destruct (Z.eqb_spec bs 0); [lia|].
    destruct (Z.ltb_spec bs 0); [|lia]. done.
  - intros Hbs. eexists. split; [by apply split_chunks|].
    set (n := Z.of_nat (length (flatten aw))).
    set (m := Z.to_nat ((n + bs - 1) / bs)).
    assert (Hn : 0 <= n) by (unfold n; lia).
    pose proof (Z.div_mod (n + bs - 1) bs ltac:(lia)) as Hdm.
    pose proof (Z.mod_pos_bound (n + bs - 1) bs ltac:(lia)) as Hmod.
    assert (Hq : 0 <= (n + bs - 1) / bs) by (apply Z.div_pos; lia).
    assert (Hm : Z.of_nat m = (n + bs - 1) / bs) by (unfold m; lia).
    assert (Hcover : (length (flatten aw) <= m * Z.to_nat bs)%nat) by (unfold n in *; nia).
    assert (Hlast : forall k, (k < m)%nat -> Z.of_nat k * bs < n) by (intros; nia).
    split; [apply concat_chunks; lia|].
    split; [by rewrite length_map, length_seq|].
    split.
    + intros k b Hk. apply list_lookup_fmap_Some in Hk as (j & -> & Hj).
      apply lookup_seq in Hj as [-> Hj]. simpl.
      rewrite length_map, length_seq.
      assert (Hlen : length (firstn (Z.to_nat bs) (skipn (k * Z.to_nat bs) (flatten aw)))
                     = Nat.min (Z.to_nat bs) (length (flatten aw) - k * Z.to_nat bs)).
      { by rewrite length_firstn, length_skipn. }
      specialize (Hlast k Hj). unfold n in Hlast.
      split. { intros E. rewrite E in Hlen. simpl in Hlen. nia. }
      split; [lia|]. intros Hnext. specialize (Hdm). unfold n in *. nia.
    + intros tb k b Htb Hsize Hk.
      apply list_lookup_fmap_Some in Hk as (j & -> & Hj).
      apply lookup_seq in Hj as [-> Hj]. simpl.
      assert (Hne : flatten aw <> []).
      { intros E. specialize (Hlast k Hj). unfold n in Hlast. rewrite E in Hlast.
        simpl in Hlast. lia. }
      rewrite (get_batch_wallets_chunk _ tb aw bs); [|lia|lia|done|done].
      do 3 f_equal. lia.
Qed.

End SplitFacts.

(** ** Loading the wallet files *)

Module LoadingFacts.
Import WalletLoading LoadingSpec.

Section Loading.
Variable from_key : string -> pyresult string.

Lemma startswith_0x (s : string) :
  startswith "0x" (if startswith "0x" s then s else "0x" +:+ s) = true.
Proof.
  destruct (startswith "0x" s) eqn:E; [done|].
  unfold startswith. simpl. by destruct s.
Qed.

Lemma wallet_of_line_from (filename : string) (lines : list string) (i : nat)
    (line : string) (w : Wallet) :
  lines !! i = Some line ->
  w ∈ wallet_of_line from_key filename i line ->
  from_line from_key filename lines w.
Proof.
  intros Hi. unfold wallet_of_line.
  destruct (truthy_str (strip line)) eqn:Ht; simpl; [|by intros ?%elem_of_nil].
  destruct (startswith "#" (strip line)) eqn:Hc; simpl; [by intros ?%elem_of_nil|].
  destruct (from_key _) as [address|e] eqn:Hk; [|by intros ?%elem_of_nil].
  intros ->%list_elem_of_singleton. exists i, line. simpl.
  repeat split; try done. apply startswith_0x.
Qed.

Lemma wallets_from_spec (filename : string) (lines : list string) :
  forall (done_ : list string) (w : Wallet),
    w ∈ wallets_from from_key filename (length done_) lines ->
    from_line from_key filename (done_ ++ lines) w.
Proof.
  induction lines as [|line rest IH]; intros done_ w Hw.
  - by apply elem_of_nil in Hw.
  - simpl in Hw. apply elem_of_app in Hw as [Hw|Hw].
    + eapply wallet_of_line_from; [|exact Hw].
      rewrite lookup_app_r, Nat.sub_diag by lia. done.
    + replace (done_ ++ line :: rest) with ((done_ ++ [line]) ++ rest)
        by by rewrite <- app_assoc.
      apply IH. by rewrite length_app, Nat.add_1_r.
Qed.

(** The line numbers of the wallets of a file increase strictly. *)
Lemma wallets_from_sorted (filename : string) (lines : list string) :
  forall i,
    Forall (fun w => Z.of_nat i < w_line_number w)
           (wallets_from from_key filename i lines)
    /\ StronglySorted Z.lt (map w_line_number (wallets_from from_key filename i lines)).
Proof.
  induction lines as [|line rest IH]; intros i; [by split; constructor|].
  destruct (IH (S i)) as [Hlow Hsorted]. simpl.
  assert (Hone : wallet_of_line from_key filename i line = []
                 \/ exists w, wallet_of_line from_key filename i line = [w]
                              /\ w_line_number w = Z.of_nat i + 1).
  { unfold wallet_of_line. repeat case_match; eauto. }
  destruct Hone as [->|(w & -> & Hn)]; simpl.
  - split; [|done]. eapply Forall_impl; [exact Hlow|]. simpl. lia.
  - split.
    + constructor; [lia|]. eapply Forall_impl; [exact Hlow|]. simpl. lia.
    + constructor; [done|]. rewrite Forall_map. eapply Forall_impl; [exact Hlow|].
      simpl. lia.
Qed.

(** Every wallet [load_wallets_from_txt] returns comes from a line of the
    file that is neither blank nor a comment and whose key [from_key]
    accepts, and carries that line's number; the wallets come in line
    order, so no two share a line number; a missing or unreadable file,
    like a file of blank lines, comments and rejected keys, gives the
    empty list and never an exception. *)
Theorem load_wallets_from_txt_lines (filename : string)
    (file : option (pyresult (list string))) :
  let wallets := load_wallets_from_txt from_key filename file in
  (forall lines, file = Some (Ret lines) ->
     Forall (from_line from_key filename lines) wallets
     /\ (length wallets <= length lines)%nat)
  /\ StronglySorted Z.lt (map w_line_number wallets)
  /\ NoDup (map w_line_number wallets)
  /\ (file = None \/ (exists e, file = Some (Raise e)) -> wallets = [])
  /\ (forall lines, file = Some (Ret lines) ->
       Forall (fun line => truthy_str (strip line) = false
                           \/ startswith "#" (strip line) = true
                           \/ is_ret (from_key (if startswith "0x" (strip line)
                                                then strip line
                                                else "0x" +:+ strip line)) = false)
              lines ->
       wallets = []).
Proof.
  cbn zeta.
  assert (Hsorted : StronglySorted Z.lt
            (map w_line_number (load_wallets_from_txt from_key filename file))).
  { destruct file as [[lines|e]|]; simpl; try constructor.
    apply wallets_from_sorted. }
  split; [|split; [done|split; [|split]]].
  - intros lines ->. simpl. split.
    + apply Forall_forall. intros w Hw.
      by apply (wallets_from_spec filename lines []).
    + clear Hsorted. generalize 0%nat. induction lines as [|line rest IH]; intros i; [done|].
      simpl. rewrite length_app. specialize (IH (S i)).
      assert (length (wallet_of_line from_key filename i line) <= 1)%nat; [|lia].
      unfold wallet_of_line. repeat case_match; simpl; lia.
  - clear -Hsorted. induction Hsorted as [|x xs _ IH Hx]; constructor; [|done].
    intros Hin. eapply Forall_forall in Hx; [|exact Hin]. lia.
  - by intros [->|[e ->]].
  - intros lines -> Hall. clear Hsorted. simpl. generalize 0%nat.
    induction Hall as [|line rest Hline _ IH]; intros i; [done|].
    simpl. rewrite IH, app_nil_r. unfold wallet_of_line.
    destruct Hline as [->|[Hc|Hk]]; [done| |].
    + rewrite Hc. by rewrite andb_false_r.
    + cbv zeta. destruct (from_key _) as [a|e]; [discriminate Hk|].
      by destruct (_ && _).
Qed.

Lemma dict_set_fresh {V} (key : string) (value : V) (d : list (string * V)) :
  key ∉ d.*1 -> dict_set key value d = d ++ [(key, value)].
Proof.
  induction d as [|[k v] d IH]; intros Hk; [done|]. simpl.
  rewrite fmap_cons, not_elem_of_cons in Hk. destruct Hk as [Hne Hk]. simpl in Hne.
  destruct (String.eqb_spec k key) as [->|_]; [done|]. by rewrite IH.
Qed.

Lemma dict_set_keys {V} (key : string) (value : V) (d : list (string * V)) :
  key ∈ d.*1 -> (dict_set key value d).*1 = d.*1.
Proof.
  induction d as [|[k v] d IH]; intros Hk; [by apply elem_of_nil in Hk|]. simpl.
  destruct (String.eqb_spec k key) as [->|Hne]; [done|]. simpl. f_equal.
  apply IH. rewrite fmap_cons, elem_of_cons in Hk. simpl in Hk. naive_solver.
Qed.

Lemma dict_set_elem {V} (key : string) (value : V) (d : list (string * V)) k v :
  NoDup d.*1 ->
  (k, v) ∈ dict_set key value d
  <-> (k = key /\ v = value) \/ (k <> key /\ (k, v) ∈ d).
Proof.
  induction d as [|[k' v'] d IH]; intros Hnd; simpl.
  - rewrite list_elem_of_singleton, elem_of_nil. naive_solver.
  - rewrite fmap_cons in Hnd. apply NoDup_cons in Hnd as [Hk' Hnd]. simpl in Hk'.
    destruct (String.eqb_spec k' key) as [->|Hne].
    + rewrite !elem_of_cons. split.
      * intros [[= -> ->]|Hin]; [by left|]. right. split; [|by right].
        intros ->. apply Hk'. apply list_elem_of_fmap. by exists (key, v).
      * intros [[-> ->]|[Hne [[= -> ->]|Hin]]]; [by left|done|by right].
    + rewrite !elem_of_cons, IH by done. naive_solver.
Qed.

Lemma load_all_snoc (txt_files : list string) (filename : string) read :
  load_all_wallet_files from_key (txt_files ++ [filename]) read
  = match load_wallets_from_txt from_key filename (read filename) with
    | [] => load_all_wallet_files from_key txt_files read
    | (_ :: _) as wallets =>
        dict_set filename wallets (load_all_wallet_files from_key txt_files read)
    end.
Proof. unfold load_all_wallet_files. by rewrite fold_left_app. Qed.

Lemma load_all_inv (txt_files : list string) read :
  let all_wallets := load_all_wallet_files from_key txt_files read in
  NoDup all_wallets.*1
  /\ (forall k v, (k, v) ∈ all_wallets
                 <-> k ∈ txt_files
                     /\ v = load_wallets_from_txt from_key k (read k) /\ v <> []).
Proof.
  cbn zeta. induction txt_files as [|filename txt_files [IHnd IH]] using rev_ind.
  - split; [constructor|]. intros k v. cbn. rewrite !elem_of_nil. naive_solver.
  - rewrite load_all_snoc.
    destruct (load_wallets_from_txt from_key filename (read filename))
      as [|w ws] eqn:Hload.
    + split; [done|]. intros k v. rewrite IH, elem_of_app, list_elem_of_singleton.
      split; [naive_solver|]. intros [[Hk| ->] [-> Hv]]; [done|]. by rewrite Hload in Hv.
    + split.
      * destruct (decide (filename ∈ (load_all_wallet_files from_key txt_files read).*1))
          as [Hin|Hin].
        -- by rewrite dict_set_keys.
        -- rewrite dict_set_fresh, fmap_app by done. apply NoDup_app.
           split; [done|]. split; [|apply NoDup_singleton].
           intros k Hk ->%list_elem_of_singleton. done.
      * intros k v. rewrite dict_set_elem, IH, elem_of_app, list_elem_of_singleton by done.
        split.
        -- intros [[-> ->]|[Hne (Hk & -> & Hv)]]; [|by eauto].
           split; [by right|]. by rewrite Hload.
        -- intros [[Hk| ->] [-> Hv]].
           ++ destruct (decide (k = filename)) as [->|Hne]; [left|right; by eauto].
              by rewrite Hload.
           ++ left. by rewrite Hload.
Qed.

(** [load_all_wallet_files] keeps exactly the files that gave at least
    one wallet, each once and with the wallets [load_wallets_from_txt]
    returns for it, so no entry of the dict is an empty list; when the
    names found are pairwise distinct, the entries stand in the order
    the names were found; and a dict that is not empty holds a wallet,
    so that after the guard [if not all_wallets] of [run_batch] the
    flattened wallet list is never empty. *)
Theorem load_all_wallet_files_dict (txt_files : list string)
    (read : string -> option (pyresult (list string))) :
  let all_wallets := load_all_wallet_files from_key txt_files read in
  NoDup all_wallets.*1
  /\ (forall filename wallets,
        (filename, wallets) ∈ all_wallets
        <-> filename ∈ txt_files
            /\ wallets = load_wallets_from_txt from_key filename (read filename)
            /\ wallets <> [])
  /\ (NoDup txt_files -> all_wallets = loaded_files from_key txt_files read)
  /\ (all_wallets <> [] <-> Partitioner.flatten all_wallets <> [])
  /\ (all_wallets = []
      <-> forall filename, filename ∈ txt_files ->
            load_wallets_from_txt from_key filename (read filename) = []).
Proof.
  cbn zeta. destruct (load_all_inv txt_files read) as [Hnd Hin].
  split; [done|]. split; [done|]. split; [|split].
  - clear Hnd Hin. induction txt_files as [|filename txt_files IH] using rev_ind;
      intros Hnd; [done|].
    apply NoDup_app in Hnd as (Hnd & Hfresh & _).
    rewrite load_all_snoc. unfold loaded_files. rewrite omap_app. simpl.
    fold (loaded_files from_key txt_files read). rewrite <- IH by done.
    destruct (load_wallets_from_txt from_key filename (read filename))
      as [|w ws] eqn:Hload; simpl; [by rewrite app_nil_r|].
    apply dict_set_fresh. intros [[k v] [Hk Hkv]]%list_elem_of_fmap. simpl in Hk.
    subst k. apply load_all_inv in Hkv as [Hkv _]. apply (Hfresh filename); [done|].
    by apply list_elem_of_singleton.
  - split; [|by intros H Hall; rewrite Hall in H].
    destruct (load_all_wallet_files from_key txt_files read) as [|[k v] d] eqn:Hall;
      [done|]. intros _.
    assert (Hv : v <> []) by (apply (Hin k v); by left).
    unfold Partitioner.flatten. simpl. by destruct v.
  - split.
    + intros Hall filename Hfile.
      destruct (load_wallets_from_txt from_key filename (read filename))
        as [|w ws] eqn:Hload; [done|].
      assert (Hmem : (filename, w :: ws) ∈ load_all_wallet_files from_key txt_files read).
      { apply Hin. by rewrite Hload. }
      rewrite Hall in Hmem. by apply elem_of_nil in Hmem.
    + intros Hnone.
      destruct (load_all_wallet_files from_key txt_files read) as [|[k v] d]; [done|].
      destruct (proj1 (Hin k v)) as (Hk & -> & Hv); [by left|].
      by rewrite Hnone in Hv.
Qed.

End Loading.
End LoadingFacts.

(** ** The bridge operation *)

Module BridgeFacts.
Import Bridge.

(** [execute_bridge_operation] never raises and leaves the caller's
    state as it was; it returns a transaction id exactly when every call
    answered and the receipt's status is 1, and the id is the hash of
    the sent transaction.  The gas price only has to be answered: where
    [execute_stake_operation] gives up above 25 gwei, the bridge
    transaction is sent at whatever price the node reports. *)
Theorem execute_bridge_operation_no_ceiling {St} (rpc : BridgeRpc) (st : St) :
  let out := execute_bridge_operation rpc st in
  snd out = st
  /\ (exists answer, fst out = Ret answer)
  /\ (forall tx_hash,
        fst out = Ret (Some tx_hash)
        <-> (is_ret (b_from_key rpc) = true /\ is_ret (b_to_wei rpc) = true
             /\ is_ret (b_gas_price rpc) = true /\ is_ret (b_nonce rpc) = true
             /\ is_ret (b_chain_id rpc) = true /\ is_ret (b_sign rpc) = true
             /\ b_send rpc = Ret tx_hash
             /\ b_receipt_status rpc = Ret 1)).
Proof.
  cbn zeta.
  unfold execute_bridge_operation, HeliosOperations.answer, try_except, bind, ret, raise.
  destruct rpc as [[a|?] [b|?] [g|?] [n|?] [i|?] [r|?] [h|?] [s|?]]; simpl;
    try (split; [done|]; split; [by eexists|]; intros tx; split;
         [done | intros (?&?&?&?&?&?&?&?); simplify_eq; done]).
  destruct (Z.eqb_spec s 1); simpl;
    (split; [done|]; split; [by eexists|]; intros tx; split;
     [ intros ?; simplify_eq; repeat split; eauto
     | intros (?&?&?&?&?&?&?&?); simplify_eq; done ]).
Qed.

End BridgeFacts.

